(** * Lambda import / upload commands of the AWS Toolkit: a shallow embedding

    The development follows two source files of the extension:
    - the Lambda import command ([importLambdaCommand], [runImportLambda],
      [downloadAndUnzipLambda], [openLambdaFile], [addLaunchConfigEntry],
      [getLambdaFileNameFromHandler], [ImportError]);
    - [src/lambda/commands/uploadLambda.ts] ([uploadLambdaCommand],
      [selectUploadTypeAndConfirm], [runUploadLambdaDirectory],
      [runUploadLambdaZipFile], [runUploadLambdaWithSamBuild],
      [zipAndUploadDirectory], [uploadZipBuffer]).

    Pure code is embedded as functions.  Asynchronous code is embedded in a
    small monad that records the observable calls made to the collaborators
    (progress sink, window, SAM CLI, Lambda client, ...) and ends in one of
    three ways: the function returns, it throws (the promise rejects), or its
    promise never settles. *)

From Stdlib Require Import String Ascii List Bool ZArith Lia.
Import ListNotations.
Local Open Scope string_scope.
Local Open Scope list_scope.

(** String concatenation (JavaScript [+] and template strings); [++] is kept
    for lists. *)
Infix "+++" := String.append (right associativity, at level 60).

(** ** JavaScript values used by the commands *)

(** [class ImportError extends Error {}] next to the plain [Error]s thrown by
    the commands and by their collaborators.  [instanceOfImportError] is the
    test [e instanceof ImportError]. *)
Inductive JsError : Type :=
| Err (message : string)
| ImportError.

Definition instanceOfImportError (e : JsError) : bool :=
  match e with
  | ImportError => true
  | Err _ => false
  end.

Definition errorMessage (e : JsError) : string :=
  match e with
  | Err m => m
  | ImportError => ""
  end.

(** A synchronous call either returns or throws. *)
Inductive Except (A : Type) : Type :=
| Value (a : A)
| Throw (e : JsError).
Arguments Value {A} a.
Arguments Throw {A} e.

(** [telemetry.Result], restricted to the values the commands produce. *)
Inductive Result : Type := Succeeded | Failed | Cancelled.

(** Modelled from the spec: the enumeration [RuntimeFamily] of
    [lambda/models/samLambdaRuntime], which is imported but not part of the
    sources; the spec gives the classification [{Python, NodeJS, Other}]. *)
Inductive RuntimeFamily : Type := Python | NodeJS | Other.

(** The two fields of [Lambda.FunctionConfiguration] read through a non-null
    assertion by the resolver, and the other fields the commands read. *)
Record FunctionConfiguration : Type := {
  FunctionName : string;
  FunctionArn : string;
  Handler : string;
  Runtime : string
}.

(** ** String primitives: [split], [initial], [join] *)

Module Str.

(** [s.split(sep)] for a one-character separator: the list of maximal
    separator-free pieces, in order; never empty. *)
Fixpoint split (sep : ascii) (s : string) : list string :=
  match s with
  | EmptyString => [EmptyString]
  | String c rest =>
      if Ascii.eqb c sep then EmptyString :: split sep rest
      else match split sep rest with
           | piece :: pieces => String c piece :: pieces
           | [] => [String c EmptyString]
           end
  end.

(** lodash [initial]: all but the last element. *)
Definition initial {A : Type} (xs : list A) : list A := removelast xs.

(** [Array.prototype.join(sep)]. *)
Fixpoint join (sep : string) (xs : list string) : string :=
  match xs with
  | [] => EmptyString
  | [x] => x
  | x :: rest => x +++ sep +++ join sep rest
  end.

(** [contains c s]: the character [c] occurs in [s]. *)
Fixpoint contains (c : ascii) (s : string) : bool :=
  match s with
  | EmptyString => false
  | String d rest => Ascii.eqb d c || contains c rest
  end.

End Str.

Definition dot : ascii := "."%char.

(** ** The handler-to-filename resolver *)

Section Resolver.

(** [getFamily] of [lambda/models/samLambdaRuntime] is imported, not defined
    in the sources: it is a parameter of the resolver. *)
Variable getFamily : string -> RuntimeFamily.

Definition getLambdaFileNameFromHandler (configuration : FunctionConfiguration)
  : Except string :=
  let runtimeExtension :=
    match getFamily (Runtime configuration) with
    | Python => Value "py"
    | NodeJS => Value "js"
    | _ => Throw (Err ("Toolkit does not currently support imports for runtime: "
                         +++ Runtime configuration))
    end in
  match runtimeExtension with
  | Throw e => Throw e
  | Value runtimeExtension =>
      let fileName := Str.join "." (Str.initial (Str.split dot (Handler configuration))) in
      Value (fileName +++ "." +++ runtimeExtension)
  end.

End Resolver.

(** The extension the resolver uses for a family, when it has one. *)
Definition familyExtension (f : RuntimeFamily) : option string :=
  match f with
  | Python => Some "py"
  | NodeJS => Some "js"
  | Other => None
  end.

(** A concrete classification used to run the resolver on examples: runtime
    identifiers are classified by their prefix. *)
Definition sampleGetFamily (runtime : string) : RuntimeFamily :=
  if String.prefix "python" runtime then Python
  else if String.prefix "nodejs" runtime then NodeJS
  else Other.

Definition sampleConfiguration (runtime handler : string) : FunctionConfiguration :=
  {| FunctionName := "fn1";
     FunctionArn := "arn:aws:lambda:us-west-2:123456789012:function:fn1";
     Handler := handler;
     Runtime := runtime |}.

(** ** Asynchronous functions

    An [async] function of the commands is embedded as the list of calls it
    makes to its collaborators, in order, together with how it ends:
    - [Returned a]: the promise is fulfilled with [a];
    - [Thrown e]: the promise is rejected with [e];
    - [NeverSettles]: the promise stays pending for ever, so that no code
      after an [await] of it runs, neither a continuation nor a [catch].

    The third case is what [await new Promise(resolve => ...)] yields when
    nothing calls [resolve] and the executor itself does not throw: the
    executors of the commands take no [reject], and an exception thrown by a
    listener that runs after the executor has returned is raised in the event
    loop, outside the promise. *)

Inductive Outcome (A : Type) : Type :=
| Returned (a : A)
| Thrown (e : JsError)
| NeverSettles.
Arguments Returned {A} a.
Arguments Thrown {A} e.
Arguments NeverSettles {A}.

Inductive LogLevel : Type := LDebug | LInfo | LWarn | LError.

(** A user-visible text: a raw string, or [localize(key, format, args...)]. *)
Inductive Text : Type :=
| Plain (s : string)
| Localized (key : string) (args : list string).

Record Uri : Type := { uriId : nat; fsPath : string }.

(** [a === b] on [Uri] objects: identity of the object. *)
Definition sameObject (a b : Uri) : bool := Nat.eqb (uriId a) (uriId b).

Record WorkspaceFolder : Type := { uri : Uri; name : string }.

Definition Buffer : Type := string.

Record LambdaFunctionNode : Type := {
  configuration : FunctionConfiguration;
  regionCode : string;
  functionName : string
}.

(** The selection of the upload quick pick. *)
Inductive UploadItem : Type := uploadZipItem | zipDirItem | buildDirItem.

(** The calls a command makes to its collaborators. *)
Inductive Call : Type :=
| ShowErrorMessage (text : Text)
| ShowWarningMessage (text : Text)
| ShowConfirmationMessage (prompt : Text)
| ShowOpenDialog (canSelectFolders canSelectFiles : bool)
| PromptUserForLocation
| PromptUser
| WithProgress (title : Text)
| ProgressReport (increment : Z)
| Log (level : LogLevel) (message : Text)
| PathExists (path : string)
| FileExists (path : string)
| AddFolderToWorkspace (folder : Uri)
| MakeTemporaryToolkitFolder
| AddDisposableFolder (path : string)
| ReadFileSync (path : string)
| OpenTextDocument (path : string)
| ShowTextDocument (path : string)
| AddDebugConfiguration (handler codeRoot runtime : string)
| GetFunction (arn : string)
| RequestGet (url destination : string)
| NewAdmZip (path : string)
| ExtractAllToAsync (target : string) (overwrite : bool)
| AddLocalFolder (path : string)
| GenerateTemplate (handler resourceName runtime codeUri templatePath : string)
| SamCliBuild (buildDir templatePath baseDir : string) (skipPullImage useContainer : bool)
| UpdateFunctionCode (name : string) (zip : Buffer)
| RecordLambdaImport (result : Result) (runtime : string)
| RecordLambdaUpdateFunctionCode (result : Result) (runtime : string)
| UncaughtException (e : JsError).

Definition Async (A : Type) : Type := (list Call * Outcome A)%type.

Definition trace {A : Type} (m : Async A) : list Call := fst m.
Definition outcome {A : Type} (m : Async A) : Outcome A := snd m.

Module AsyncMonad.

Definition ret {A : Type} (a : A) : Async A := ([], Returned a).

Definition throw {A : Type} (e : JsError) : Async A := ([], Thrown e).

Definition bind {A B : Type} (m : Async A) (k : A -> Async B) : Async B :=
  match m with
  | (t, Returned a) => let (t', o) := k a in (t ++ t', o)
  | (t, Thrown e) => (t, Thrown e)
  | (t, NeverSettles) => (t, NeverSettles)
  end.

(** [try { m } catch (e) { handler e }]: only a thrown exception reaches the
    handler. *)
Definition tryCatch {A : Type} (m : Async A) (handler : JsError -> Async A) : Async A :=
  match m with
  | (t, Thrown e) => let (t', o) := handler e in (t ++ t', o)
  | _ => m
  end.

(** A call whose result is not used. *)
Definition emit (c : Call) : Async unit := ([c], Returned tt).

End AsyncMonad.
Import AsyncMonad.

Declare Scope async_scope.
Delimit Scope async_scope with async.
Notation "x <- m ;; k" := (bind m (fun x => k))
  (at level 61, m at next level, right associativity) : async_scope.
Notation "m ;; k" := (bind m (fun _ => k))
  (at level 61, right associativity) : async_scope.
Local Open Scope async_scope.

(** What a collaborator answers to a call: a value, or an exception (a
    rejected promise).  The exceptions of collaborators are plain [Error]s:
    [ImportError] is private to the import command. *)
Inductive Reply (A : Type) : Type :=
| Ok (a : A)
| Raises (message : string).
Arguments Ok {A} a.
Arguments Raises {A} message.

(** A call to a collaborator, answered by [r]. *)
Definition call {A : Type} (c : Call) (r : Reply A) : Async A :=
  match r with
  | Ok a => ([c], Returned a)
  | Raises m => ([c], Thrown (Err m))
  end.

(** A synchronous function of the commands used inside an [async] one. *)
Definition sync {A : Type} (x : Except A) : Async A :=
  match x with
  | Value a => ret a
  | Throw e => throw e
  end.

(** *** The events of the download

    What the [request] object and the write stream it is piped to emit, in
    order, after [request.get(codeLocation)]. *)
Inductive RequestEvent : Type :=
| OnResponse (statusCode : nat)
| OnComplete
| OnError (message : string)
| OnWriteStreamError (message : string).

(** *** The behaviour of the archive library on [function.zip]

    [new AdmZip(downloadLocation)] throws or returns; [extractAllToAsync]
    then invokes its callback at most once, with or without an error, either
    before it returns to the executor or later from the event loop. *)
Inductive CallbackTiming : Type := BeforeReturn | FromEventLoop.

Inductive Extraction : Type :=
| ConstructorThrows (message : string)
| CallbackNeverInvoked
| CallbackInvoked (timing : CallbackTiming) (err : option string).

(** ** The collaborators

    Pure library functions ([path], [vscode.workspace.asRelativePath],
    [getFamily]) are the fields of [Platform].  The
    answers of the outside world to the calls of one run are the fields of
    [World].  Constructors and accessors without I/O
    ([createLambdaClient], [getSamCliContext], [Window.vscode],
    [getLogger], [new LaunchConfiguration], [createCodeAwsSamDebugConfig],
    [new SamTemplateGenerator]) are taken to return. *)
Record Platform : Type := {
  getFamily : string -> RuntimeFamily;
  path_join : list string -> string;
  path_sep : string;
  path_dirname : string -> string;
  asRelativePath : string -> string
}.

Record World : Type := {
  workspaceFolders : list WorkspaceFolder;
  getWorkspaceFolder : string -> WorkspaceFolder;
  (* import *)
  locationPrompt : Reply (option Uri);
  pathExists : string -> Reply bool;
  overwriteConfirmation : Reply bool;
  addFolderToWorkspace : Reply unit;
  makeTemporaryToolkitFolder : Reply string;
  getFunction : Reply string;
  requestEvents : list RequestEvent;
  extraction : Extraction;
  fileExists : string -> Reply bool;
  openTextDocument : Reply unit;
  showTextDocument : Reply unit;
  handlerPathReferenced : bool;
  addDebugConfiguration : Reply unit;
  (* upload *)
  pickerResponse : Reply (option UploadItem);
  uploadConfirmation : Reply bool;
  openDialog : Reply (option (list Uri));
  readFileSync : string -> Reply Buffer;
  handlerConfirmation : Reply bool;
  generateTemplate : Reply unit;
  samCliBuild : Reply unit;
  zipLocalFolder : string -> Reply Buffer;
  updateFunctionCode : Reply unit
}.

(** ** The import command *)

Section ImportCommand.

Variable platform : Platform.
Variable world : World.

(** The first promise of [downloadAndUnzipLambda]: the listeners registered
    on the request.  ['response'] logs; ['complete'] logs and calls
    [resolve]; ['error'] throws from the listener, in the event loop.  The
    write stream has no ['error'] listener.  Events after the promise is
    fulfilled are not followed. *)
Fixpoint downloadPromise (events : list RequestEvent) : Async unit :=
  match events with
  | [] => ([], NeverSettles)
  | OnResponse _ :: rest =>
      emit (Log LDebug (Plain "Established Lambda download")) ;;
      downloadPromise rest
  | OnComplete :: _ =>
      emit (Log LDebug (Plain "Lambda download complete")) ;;
      ret tt
  | OnError m :: rest =>
      emit (UncaughtException (Err m)) ;;
      downloadPromise rest
  | OnWriteStreamError m :: rest =>
      emit (UncaughtException (Err m)) ;;
      downloadPromise rest
  end.

(** The second promise of [downloadAndUnzipLambda]. *)
Definition extractPromise (downloadLocation importLocation : string) : Async unit :=
  match extraction world with
  | ConstructorThrows m =>
      call (NewAdmZip downloadLocation) (Raises m)
  | CallbackNeverInvoked =>
      emit (NewAdmZip downloadLocation) ;;
      emit (ExtractAllToAsync importLocation true) ;;
      ([], NeverSettles)
  | CallbackInvoked timing (Some m) =>
      emit (NewAdmZip downloadLocation) ;;
      emit (ExtractAllToAsync importLocation true) ;;
      match timing with
      | BeforeReturn => throw (Err m)
      | FromEventLoop => emit (UncaughtException (Err m)) ;; ([], NeverSettles)
      end
  | CallbackInvoked _ None =>
      emit (NewAdmZip downloadLocation) ;;
      emit (ExtractAllToAsync importLocation true) ;;
      emit (ProgressReport 10) ;;
      ret tt
  end.

Definition downloadAndUnzipLambda (functionNode : LambdaFunctionNode)
    (importLocation : string) : Async unit :=
  let functionArn := FunctionArn (configuration functionNode) in
  tryCatch
    (tempFolder <- call MakeTemporaryToolkitFolder (makeTemporaryToolkitFolder world) ;;
     emit (AddDisposableFolder tempFolder) ;;
     let downloadLocation := path_join platform [tempFolder; "function.zip"] in
     codeLocation <- call (GetFunction functionArn) (getFunction world) ;;
     emit (ProgressReport 10) ;;
     emit (Log LDebug (Plain "Starting Lambda download...")) ;;
     emit (RequestGet codeLocation downloadLocation) ;;
     downloadPromise (requestEvents world) ;;
     emit (ProgressReport 70) ;;
     extractPromise downloadLocation importLocation)
    (fun err =>
       emit (Log LError (Plain (errorMessage err))) ;;
       emit (ShowErrorMessage
               (Localized "AWS.lambda.import.importError"
                          [functionArn; errorMessage err])) ;;
       throw ImportError).

Definition openLambdaFile (lambdaLocation : string) : Async unit :=
  found <- call (FileExists lambdaLocation) (fileExists world lambdaLocation) ;;
  (if negb found then
     emit (Log LWarn (Localized "AWS.lambda.import.fileNotFound" [lambdaLocation])) ;;
     emit (ShowWarningMessage
             (Localized "AWS.lambda.import.fileNotFound" [lambdaLocation])) ;;
     throw (Err "")
   else ret tt) ;;
  call (OpenTextDocument lambdaLocation) (openTextDocument world) ;;
  call (ShowTextDocument lambdaLocation) (showTextDocument world).

Definition addLaunchConfigEntry (lambdaLocation : string)
    (functionNode : LambdaFunctionNode) (workspaceFolder : WorkspaceFolder)
  : Async unit :=
  let handler := Handler (configuration functionNode) in
  if negb (handlerPathReferenced world) then
    call (AddDebugConfiguration handler (path_dirname platform lambdaLocation)
                                (Runtime (configuration functionNode)))
         (addDebugConfiguration world)
  else ret tt.

(** The task passed to [window.withProgress] by [runImportLambda]. *)
Definition importTask (functionNode : LambdaFunctionNode)
    (importLocation : string) (workspaceFolder : WorkspaceFolder) : Async Result :=
  fileName <- sync (getLambdaFileNameFromHandler (getFamily platform)
                                                 (configuration functionNode)) ;;
  let lambdaLocation := path_join platform [importLocation; fileName] in
  tryCatch
    (downloadAndUnzipLambda functionNode importLocation ;;
     openLambdaFile lambdaLocation ;;
     addLaunchConfigEntry lambdaLocation functionNode workspaceFolder ;;
     ret Succeeded)
    (fun e =>
       if instanceOfImportError e then ret Failed
       else ret Succeeded).

Definition runImportLambda (functionNode : LambdaFunctionNode) : Async Result :=
  let functionName := FunctionName (configuration functionNode) in
  if Nat.eqb (length (workspaceFolders world)) 0 then
    emit (ShowErrorMessage (Localized "AWS.lambda.import.noWorkspaceFolders" [])) ;;
    ret Cancelled
  else
    selectedUri <- call PromptUserForLocation (locationPrompt world) ;;
    match selectedUri with
    | None => ret Cancelled
    | Some selectedUri =>
        let importLocation :=
          path_join platform [fsPath selectedUri; functionName; path_sep platform] in
        let importLocationName := asRelativePath platform importLocation in
        present <- call (PathExists importLocation) (pathExists world importLocation) ;;
        proceed <-
          (if present : bool then
             isConfirmed <-
               call (ShowConfirmationMessage
                       (Localized "AWS.lambda.import.prompt"
                                  [functionName; importLocationName]))
                    (overwriteConfirmation world) ;;
             if negb isConfirmed then
               emit (Log LInfo (Plain "ImportLambda cancelled")) ;; ret false
             else ret true
           else ret true) ;;
        if negb proceed then ret Cancelled
        else
          (if Nat.eqb (length (filter (fun val => sameObject selectedUri (uri val))
                                      (workspaceFolders world))) 0
           then call (AddFolderToWorkspace selectedUri) (addFolderToWorkspace world)
           else ret tt) ;;
          let workspaceFolder := getWorkspaceFolder world importLocation in
          emit (WithProgress (Localized "AWS.lambda.import.status"
                                        [functionName; importLocationName])) ;;
          importTask functionNode importLocation workspaceFolder
    end.

Definition importLambdaCommand (functionNode : LambdaFunctionNode) : Async unit :=
  result <- runImportLambda functionNode ;;
  emit (RecordLambdaImport result (Runtime (configuration functionNode))).

End ImportCommand.

(** ** The upload command ([src/lambda/commands/uploadLambda.ts]) *)

Section UploadCommand.

Variable platform : Platform.
Variable world : World.

Definition uploadZipBuffer (functionNode : LambdaFunctionNode) (zip : Buffer)
  : Async Result :=
  tryCatch
    (call (UpdateFunctionCode (FunctionName (configuration functionNode)) zip)
          (updateFunctionCode world) ;;
     ret Succeeded)
    (fun err =>
       emit (ShowErrorMessage (Plain (errorMessage err))) ;;
       emit (Log LError (Plain ("uploadZipBuffer failed: " +++ errorMessage err))) ;;
       ret Failed).

Definition zipAndUploadDirectory (functionNode : LambdaFunctionNode) (path : string)
  : Async Result :=
  tryCatch
    (zipBuffer <- call (AddLocalFolder path) (zipLocalFolder world path) ;;
     uploadZipBuffer functionNode zipBuffer)
    (fun err =>
       emit (ShowErrorMessage (Plain (errorMessage err))) ;;
       emit (Log LError (Plain ("zipAndUploadDirectory failed: " +++ errorMessage err))) ;;
       ret Failed).

Definition runUploadLambdaDirectory (functionNode : LambdaFunctionNode) : Async Result :=
  parentDirArr <- call (ShowOpenDialog true false) (openDialog world) ;;
  match parentDirArr with
  | Some [parentDir] => zipAndUploadDirectory functionNode (fsPath parentDir)
  | _ => ret Cancelled
  end.

Definition runUploadLambdaZipFile (functionNode : LambdaFunctionNode) : Async Result :=
  zipFileArr <- call (ShowOpenDialog false true) (openDialog world) ;;
  match zipFileArr with
  | Some [zipFileUri] =>
      zipFile <- call (ReadFileSync (fsPath zipFileUri))
                      (readFileSync world (fsPath zipFileUri)) ;;
      uploadZipBuffer functionNode zipFile
  | _ => ret Cancelled
  end.

(** The first [try] block of [runUploadLambdaWithSamBuild], with its [catch]:
    [Some r] when the block returns [r] from the function, [None] when
    control falls through to the build. *)
Definition handlerCheck (functionNode : LambdaFunctionNode) (parentDir : Uri)
  : Async (option Result) :=
  tryCatch
    (fileName <- sync (getLambdaFileNameFromHandler (getFamily platform)
                                                   (configuration functionNode)) ;;
     let handlerFile := path_join platform [fsPath parentDir; fileName] in
     found <- call (FileExists handlerFile) (fileExists world handlerFile) ;;
     if negb found then
       isConfirmed <-
         call (ShowConfirmationMessage
                 (Localized "AWS.lambda.upload.handlerNotFound"
                            [Handler (configuration functionNode); handlerFile]))
              (handlerConfirmation world) ;;
       if negb isConfirmed then
         emit (Log LInfo
                 (Plain "Handler file not found. Aborting runUploadLambdaWithSamBuild")) ;;
         ret (Some Cancelled)
       else ret None
     else ret None)
    (fun e =>
       emit (Log LInfo
               (Plain "Attempting to build a runtime not supported by Toolkit. Ignoring handler check.")) ;;
       ret None).

(** The second [try] block of [runUploadLambdaWithSamBuild], with its
    [catch]. *)
Definition samBuildAndUpload (functionNode : LambdaFunctionNode) (parentDir : Uri)
  : Async Result :=
  tryCatch
    (tempDir <- call MakeTemporaryToolkitFolder (makeTemporaryToolkitFolder world) ;;
     emit (AddDisposableFolder tempDir) ;;
     let templatePath := path_join platform [tempDir; "template.yaml"] in
     let resourceName := "tempResource" in
     call (GenerateTemplate (Handler (configuration functionNode)) resourceName
                            (Runtime (configuration functionNode))
                            (fsPath parentDir) templatePath)
          (generateTemplate world) ;;
     let buildDir := path_join platform [tempDir; "output"] in
     call (SamCliBuild buildDir templatePath (fsPath parentDir) true false)
          (samCliBuild world) ;;
     zipAndUploadDirectory functionNode (path_join platform [buildDir; resourceName]))
    (fun err =>
       emit (ShowErrorMessage (Plain (errorMessage err))) ;;
       emit (Log LError
               (Plain ("runUploadLambdaWithSamBuild failed: " +++ errorMessage err))) ;;
       ret Failed).

Definition runUploadLambdaWithSamBuild (functionNode : LambdaFunctionNode)
  : Async Result :=
  parentDirArr <- call (ShowOpenDialog true false) (openDialog world) ;;
  match parentDirArr with
  | Some [parentDir] =>
      early <- handlerCheck functionNode parentDir ;;
      match early with
      | Some result => ret result
      | None => samBuildAndUpload functionNode parentDir
      end
  | _ => ret Cancelled
  end.

Definition selectUploadTypeAndConfirm (functionNode : LambdaFunctionNode)
  : Async Result :=
  response <- call PromptUser (pickerResponse world) ;;
  match response with
  | None => ret Cancelled
  | Some response =>
      isConfirmed <-
        call (ShowConfirmationMessage
                (Localized "AWS.lambda.upload.confirm" [functionName functionNode]))
             (uploadConfirmation world) ;;
      if negb isConfirmed then
        emit (Log LInfo (Plain "UploadLambda confirmation cancelled.")) ;;
        ret Cancelled
      else
        match response with
        | uploadZipItem => runUploadLambdaZipFile functionNode
        | zipDirItem => runUploadLambdaDirectory functionNode
        | buildDirItem => runUploadLambdaWithSamBuild functionNode
        end
  end.

Definition uploadLambdaCommand (functionNode : LambdaFunctionNode) : Async unit :=
  result <- selectUploadTypeAndConfirm functionNode ;;
  emit (RecordLambdaUpdateFunctionCode result (Runtime (configuration functionNode))).

End UploadCommand.

(** ** Observations on a run *)

(** The increments passed to [progress.report], in order. *)
Fixpoint progressIncrements (t : list Call) : list Z :=
  match t with
  | [] => []
  | ProgressReport increment :: rest => increment :: progressIncrements rest
  | _ :: rest => progressIncrements rest
  end.

(** The cumulative progress after each report, starting from [start]. *)
Fixpoint cumulative (start : Z) (increments : list Z) : list Z :=
  match increments with
  | [] => []
  | i :: rest => (start + i)%Z :: cumulative (start + i)%Z rest
  end.

Fixpoint nonDecreasing (previous : Z) (xs : list Z) : bool :=
  match xs with
  | [] => true
  | x :: rest => (previous <=? x)%Z && nonDecreasing x rest
  end.

Definition total (increments : list Z) : Z := fold_right Z.add 0%Z increments.

(** The budget of the progress notification of [window.withProgress]: the
    increments are percentages of one bar. *)
Definition progressBudget : Z := 100.

(** The request emits ['complete'] at some point. *)
Definition completes (events : list RequestEvent) : bool :=
  existsb (fun e => match e with OnComplete => true | _ => false end) events.

Definition isUpdateFunctionCode (c : Call) : bool :=
  match c with UpdateFunctionCode _ _ => true | _ => false end.

Definition isSamCliBuild (c : Call) : bool :=
  match c with SamCliBuild _ _ _ _ _ => true | _ => false end.

Definition isConfirmationPrompt (c : Call) : bool :=
  match c with ShowConfirmationMessage _ => true | _ => false end.

Definition isShowErrorMessage (c : Call) : bool :=
  match c with ShowErrorMessage _ => true | _ => false end.

(** The directories handed to [zip.addLocalFolder], in order. *)
Fixpoint packedFolders (t : list Call) : list string :=
  match t with
  | [] => []
  | AddLocalFolder path :: rest => path :: packedFolders rest
  | _ :: rest => packedFolders rest
  end.

(** The build directories of the [sam build] invocations, in order. *)
Fixpoint buildDirs (t : list Call) : list string :=
  match t with
  | [] => []
  | SamCliBuild buildDir _ _ _ _ :: rest => buildDir :: buildDirs rest
  | _ :: rest => buildDirs rest
  end.

(** The resource names of the generated templates, in order. *)
Fixpoint templateResourceNames (t : list Call) : list string :=
  match t with
  | [] => []
  | GenerateTemplate _ resourceName _ _ _ :: rest =>
      resourceName :: templateResourceNames rest
  | _ :: rest => templateResourceNames rest
  end.

(** ** Sample collaborators, to run the commands on concrete inputs *)

(** A simple [path.join] for POSIX paths: the segments joined by [/], with
    runs of [/] collapsed. *)
Fixpoint collapseSlashes (s : string) : string :=
  match s with
  | EmptyString => EmptyString
  | String c rest =>
      match rest with
      | String d _ =>
          if Ascii.eqb c "/" && Ascii.eqb d "/" then collapseSlashes rest
          else String c (collapseSlashes rest)
      | EmptyString => String c EmptyString
      end
  end.

Definition samplePlatform : Platform :=
  {| getFamily := sampleGetFamily;
     path_join := fun segments => collapseSlashes (Str.join "/" segments);
     path_sep := "/";
     path_dirname := fun p => Str.join "/" (Str.initial (Str.split "/"%char p));
     asRelativePath := fun p => p |}.

Definition sampleUri : Uri := {| uriId := 1; fsPath := "/work" |}.

Definition sampleNode (runtime handler : string) : LambdaFunctionNode :=
  {| configuration := sampleConfiguration runtime handler;
     regionCode := "us-west-2";
     functionName := "fn1" |}.

(** A world in which every collaborator succeeds and every question is
    answered yes, but for the request events, the behaviour of the archive
    library, the presence of files, the answer to the missing-handler prompt
    and the result of the build, which are given. *)
Definition sampleWorld (events : list RequestEvent) (extract : Extraction)
    (present : bool) (confirmMissingHandler : bool) (build : Reply unit) : World :=
  {| workspaceFolders := [ {| uri := sampleUri; name := "work" |} ];
     getWorkspaceFolder := fun _ => {| uri := sampleUri; name := "work" |};
     locationPrompt := Ok (Some sampleUri);
     pathExists := fun _ => Ok false;
     overwriteConfirmation := Ok true;
     addFolderToWorkspace := Ok tt;
     makeTemporaryToolkitFolder := Ok "/tmp/aws-toolkit-vscode/1";
     getFunction := Ok "https://lambda.example/code/fn1.zip";
     requestEvents := events;
     extraction := extract;
     fileExists := fun _ => Ok present;
     openTextDocument := Ok tt;
     showTextDocument := Ok tt;
     handlerPathReferenced := false;
     addDebugConfiguration := Ok tt;
     pickerResponse := Ok (Some buildDirItem);
     uploadConfirmation := Ok true;
     openDialog := Ok (Some [sampleUri]);
     readFileSync := fun _ => Ok "PK";
     handlerConfirmation := Ok confirmMissingHandler;
     generateTemplate := Ok tt;
     samCliBuild := build;
     zipLocalFolder := fun _ => Ok "PK";
     updateFunctionCode := Ok tt |}.

Definition happyWorld : World :=
  sampleWorld [OnResponse 200; OnComplete] (CallbackInvoked FromEventLoop None)
              true true (Ok tt).

(** *** Sample functions and worlds *)

Definition pythonNode : LambdaFunctionNode := sampleNode "python3.8" "app.handler".
Definition rubyNode : LambdaFunctionNode := sampleNode "ruby2.7" "app.handler".

Definition extractionOk : Extraction := CallbackInvoked FromEventLoop None.

(** The connection fails: the request emits ['error'] and nothing else. *)
Definition connectionFailure : World :=
  sampleWorld [OnError "connect ECONNREFUSED"] extractionOk true true (Ok tt).

(** The download completes and the archive library reports an error from
    the event loop. *)
Definition extractionFailure : World :=
  sampleWorld [OnResponse 200; OnComplete]
              (CallbackInvoked FromEventLoop (Some "Unable to write"))
              true true (Ok tt).

(** The import succeeds and the handler file is not in the archive. *)
Definition handlerFileMissing : World :=
  sampleWorld [OnResponse 200; OnComplete] extractionOk false true (Ok tt).

Definition buildFailure : World :=
  sampleWorld [] extractionOk true true (Raises "sam build failed").

(** The selected directory has no handler file and the user answers no. *)
Definition missingHandlerDeclined : World :=
  sampleWorld [] extractionOk false false (Ok tt).

Definition missingHandlerAccepted : World :=
  sampleWorld [] extractionOk false true (Ok tt).

(** ** Further observations on a run *)

(** The calls of the download and of the extraction. *)
Definition isDownloadCall (c : Call) : bool :=
  match c with
  | MakeTemporaryToolkitFolder | GetFunction _ | RequestGet _ _
  | NewAdmZip _ | ExtractAllToAsync _ _ => true
  | _ => false
  end.

(** The calls of the import that change the workspace, the disk or the
    editor, or reach the network. *)
Definition isImportEffect (c : Call) : bool :=
  match c with
  | AddFolderToWorkspace _ | WithProgress _ | AddDisposableFolder _
  | OpenTextDocument _ | ShowTextDocument _ | AddDebugConfiguration _ _ _ => true
  | _ => isDownloadCall c
  end.

(** The calls of the upload that come after the type of upload is chosen and
    confirmed. *)
Definition isUploadAction (c : Call) : bool :=
  match c with
  | ShowOpenDialog _ _ | ReadFileSync _ | FileExists _
  | MakeTemporaryToolkitFolder | AddDisposableFolder _
  | GenerateTemplate _ _ _ _ _ | SamCliBuild _ _ _ _ _
  | AddLocalFolder _ | UpdateFunctionCode _ _ => true
  | _ => false
  end.

Definition isTelemetry (c : Call) : bool :=
  match c with
  | RecordLambdaImport _ _ | RecordLambdaUpdateFunctionCode _ _ => true
  | _ => false
  end.

(** A configuration with another handler. *)
Definition withHandler (handler : string) (c : FunctionConfiguration)
  : FunctionConfiguration :=
  {| FunctionName := FunctionName c;
     FunctionArn := FunctionArn c;
     Handler := handler;
     Runtime := Runtime c |}.

(** The user dismisses the location prompt of the import. *)
Definition promptDismissed : World :=
  {| workspaceFolders := [ {| uri := sampleUri; name := "work" |} ];
     getWorkspaceFolder := fun _ => {| uri := sampleUri; name := "work" |};
     locationPrompt := Ok None;
     pathExists := fun _ => Ok false;
     overwriteConfirmation := Ok true;
     addFolderToWorkspace := Ok tt;
     makeTemporaryToolkitFolder := Ok "/tmp/aws-toolkit-vscode/1";
     getFunction := Ok "https://lambda.example/code/fn1.zip";
     requestEvents := [OnResponse 200; OnComplete];
     extraction := extractionOk;
     fileExists := fun _ => Ok true;
     openTextDocument := Ok tt;
     showTextDocument := Ok tt;
     handlerPathReferenced := false;
     addDebugConfiguration := Ok tt;
     pickerResponse := Ok (Some buildDirItem);
     uploadConfirmation := Ok true;
     openDialog := Ok (Some [sampleUri]);
     readFileSync := fun _ => Ok "PK";
     handlerConfirmation := Ok true;
     generateTemplate := Ok tt;
     samCliBuild := Ok tt;
     zipLocalFolder := fun _ => Ok "PK";
     updateFunctionCode := Ok tt |}.

(** The user chooses a ZIP archive that cannot be read. *)
Definition zipFileUnreadable : World :=
  {| workspaceFolders := [ {| uri := sampleUri; name := "work" |} ];
     getWorkspaceFolder := fun _ => {| uri := sampleUri; name := "work" |};
     locationPrompt := Ok (Some sampleUri);
     pathExists := fun _ => Ok false;
     overwriteConfirmation := Ok true;
     addFolderToWorkspace := Ok tt;
     makeTemporaryToolkitFolder := Ok "/tmp/aws-toolkit-vscode/1";
     getFunction := Ok "https://lambda.example/code/fn1.zip";
     requestEvents := [OnResponse 200; OnComplete];
     extraction := extractionOk;
     fileExists := fun _ => Ok true;
     openTextDocument := Ok tt;
     showTextDocument := Ok tt;
     handlerPathReferenced := false;
     addDebugConfiguration := Ok tt;
     pickerResponse := Ok (Some uploadZipItem);
     uploadConfirmation := Ok true;
     openDialog := Ok (Some [ {| uriId := 2; fsPath := "/work/fn1.zip" |} ]);
     readFileSync := fun _ => Raises "EACCES: permission denied";
     handlerConfirmation := Ok true;
     generateTemplate := Ok tt;
     samCliBuild := Ok tt;
     zipLocalFolder := fun _ => Ok "PK";
     updateFunctionCode := Ok tt |}.

(** ** The icon paths of the tests ([src/test/shared/utilities/iconPathUtils.ts])

    [ext.iconPaths.dark] and [ext.iconPaths.light] are two objects whose
    properties are assigned by name; an object is embedded as the map from
    property names to values, [None] for a property that is not set. *)

Module IconPaths.

Definition Obj : Type := string -> option string.

Definition get (o : Obj) (property : string) : option string := o property.

(** [o.property = value]. *)
Definition set (property value : string) (o : Obj) : Obj :=
  fun p => if String.eqb p property then Some value else o p.

Record State : Type := { dark : Obj; light : Obj }.

Definition setDark (property value : string) (s : State) : State :=
  {| dark := set property value (dark s); light := light s |}.

Definition setLight (property value : string) (s : State) : State :=
  {| dark := dark s; light := set property value (light s) |}.

Definition setupTestIconPaths (s : State) : State :=
  let s := setDark "help" "/icons/dark/help" s in
  let s := setLight "help" "/icons/light/help" s in
  let s := setDark "cloudFormation" "/icons/dark/cloudformation" s in
  let s := setLight "cloudFormation" "/icons/light/cloudformation" s in
  let s := setDark "cloudWatchLogGroup" "/icons/dark/cloudWatchLogGroup" s in
  let s := setLight "cloudWatchLogGroup" "/icons/light/cloudWatchLogGroup" s in
  let s := setDark "lambda" "/icons/dark/lambda" s in
  let s := setLight "lambda" "/icons/light/lambda" s in
  let s := setDark "settings" "/icons/dark/settings" s in
  let s := setLight "settings" "/icons/light/settings" s in
  let s := setDark "registry" "/icons/dark/registry" s in
  let s := setLight "registry" "/icons/light/registry" s in
  let s := setDark "s3" "/icons/dark/s3" s in
  let s := setLight "s3" "/icons/light/s3" s in
  let s := setDark "folder" "/icons/dark/folder" s in
  let s := setLight "folder" "/icons/light/folder" s in
  let s := setDark "file" "/icons/dark/file" s in
  let s := setLight "file" "/icons/light/file" s in
  let s := setDark "schema" "/icons/dark/schema" s in
  setLight "schema" "/icons/light/schema" s.

Definition clearTestIconPaths (s : State) : State :=
  let s := setDark "help" "" s in
  let s := setLight "help" "" s in
  let s := setDark "cloudFormation" "" s in
  let s := setLight "cloudFormation" "" s in
  let s := setDark "lambda" "" s in
  let s := setLight "lambda" "" s in
  let s := setDark "settings" "" s in
  let s := setLight "settings" "" s in
  let s := setDark "registry" "" s in
  let s := setLight "registry" "" s in
  let s := setDark "s3" "" s in
  let s := setLight "s3" "" s in
  let s := setDark "folder" "" s in
  let s := setLight "folder" "" s in
  let s := setDark "file" "" s in
  let s := setLight "file" "" s in
  let s := setDark "schema" "" s in
  setLight "schema" "" s.

(** The properties [clearTestIconPaths] assigns. *)
Definition clearedProperties : list string :=
  ["help"; "cloudFormation"; "lambda"; "settings"; "registry"; "s3"; "folder";
   "file"; "schema"].

(** A state in which no icon path is set. *)
Definition unset : State := {| dark := fun _ => None; light := fun _ => None |}.

End IconPaths.

(** ** Summaries of an upload run, used to state facts strategy by strategy *)

(** [updateFunctionCode] is called at most once; a run that returns
    [Succeeded] has called it once, successfully, for the function of the
    node; a run that returns [Cancelled] has not called it. *)
Definition deploysAtMostOnce (world : World) (functionNode : LambdaFunctionNode)
    (run : Async Result) : Prop :=
  let deploys := filter isUpdateFunctionCode (trace run) in
  length deploys <= 1 /\
  (outcome run = Returned Succeeded ->
   updateFunctionCode world = Ok tt /\
   exists zip : Buffer,
     deploys = [UpdateFunctionCode (FunctionName (configuration functionNode)) zip]) /\
  (outcome run = Returned Cancelled -> deploys = []).

(** The run returns, and it has shown an error message exactly when it
    returns [Failed]. *)
Definition reportsFailure (run : Async Result) : Prop :=
  exists result : Result,
    outcome run = Returned result /\
    existsb isShowErrorMessage (trace run) =
      match result with Failed => true | _ => false end.
(** ** Facts about the string primitives *)

Lemma split_not_nil (sep : ascii) (s : string) : Str.split sep s <> [].
Proof.
  induction s as [|c rest IH]; simpl.
  - discriminate.
  - destruct (Ascii.eqb c sep); [discriminate|].
    destruct (Str.split sep rest); discriminate.
Qed.

Lemma append_assoc (a b c : string) : (a +++ b) +++ c = a +++ (b +++ c).
Proof. induction a; simpl; congruence. Qed.

Lemma join_cons (sep x : string) (y : string) (rest : list string) :
  Str.join sep (x :: y :: rest) = x +++ sep +++ Str.join sep (y :: rest).
Proof. reflexivity. Qed.

(** Joining the pieces of a split with the separator gives the string back. *)
Lemma join_split (c : ascii) (s : string) :
  Str.join (String c "") (Str.split c s) = s.
Proof.
  induction s as [|d rest IH]; [reflexivity|].
  pose proof (split_not_nil c rest) as Hnn.
  cbn [Str.split].
  destruct (Ascii.eqb_spec d c) as [->|Hne];
    destruct (Str.split c rest) as [|p ps]; try congruence.
  - rewrite join_cons, IH. reflexivity.
  - rewrite <- IH. destruct ps; reflexivity.
Qed.

(** No piece of a split contains the separator. *)
Lemma split_pieces_sep_free (c : ascii) (s : string) :
  Forall (fun piece => Str.contains c piece = false) (Str.split c s).
Proof.
  induction s as [|d rest IH]; simpl.
  - constructor; [reflexivity|constructor].
  - destruct (Ascii.eqb d c) eqn:E.
    + constructor; [reflexivity|exact IH].
    + destruct (Str.split c rest) as [|p ps].
      * constructor; [simpl; now rewrite E|constructor].
      * inversion IH; subst. constructor; [simpl; now rewrite E|assumption].
Qed.

(** A string with a separator splits into at least two pieces. *)
Lemma split_contains (c : ascii) (s : string) :
  Str.contains c s = true ->
  exists p q ps, Str.split c s = p :: q :: ps.
Proof.
  induction s as [|d rest IH]; simpl; [discriminate|].
  destruct (Ascii.eqb d c) eqn:E; simpl.
  - intros _. pose proof (split_not_nil c rest).
    destruct (Str.split c rest) as [|q ps]; [congruence|]. now eauto.
  - intros H. destruct (IH H) as (p & q & ps & ->). now eauto.
Qed.

Lemma join_snoc (sep : string) (xs : list string) (x y : string) :
  Str.join sep ((x :: xs) ++ [y]) = Str.join sep (x :: xs) +++ sep +++ y.
Proof.
  revert x. induction xs as [|z zs IH]; intros x.
  - reflexivity.
  - change ((x :: z :: zs) ++ [y]) with (x :: ((z :: zs) ++ [y])).
    simpl ((z :: zs) ++ [y]). rewrite join_cons.
    change (z :: zs ++ [y]) with ((z :: zs) ++ [y]).
    rewrite IH, join_cons. now rewrite !append_assoc.
Qed.

(** A string with a dot is its all-but-last segments joined by dots, a dot,
    and its last, dot-free, segment. *)
Lemma handler_decomposition (c : ascii) (s : string) :
  Str.contains c s = true ->
  exists sym : string,
    Str.contains c sym = false /\
    Str.split c s = Str.initial (Str.split c s) ++ [sym] /\
    Str.initial (Str.split c s) <> [] /\
    s = Str.join (String c "") (Str.initial (Str.split c s)) +++ String c "" +++ sym.
Proof.
  intros H. destruct (split_contains c s H) as (p & q & ps & E).
  pose proof (split_pieces_sep_free c s) as Hfree.
  pose proof (join_split c s) as Hjoin.
  assert (Hnn : Str.split c s <> []) by apply split_not_nil.
  destruct (exists_last Hnn) as (front & sym & Efs).
  exists sym. unfold Str.initial. rewrite Efs in *.
  rewrite removelast_last.
  assert (Hfront : front <> []).
  { intros ->. simpl in E. destruct ps; discriminate. }
  repeat split; try assumption.
  - rewrite Forall_app in Hfree. destruct Hfree as [_ Hs]. now inversion Hs.
  - destruct front as [|x xs]; [congruence|]. now rewrite join_snoc in Hjoin.
Qed.

Lemma split_sep_free (c : ascii) (s : string) :
  Str.contains c s = false -> Str.split c s = [s].
Proof.
  induction s as [|d rest IH]; simpl; [reflexivity|].
  destruct (Ascii.eqb d c); simpl; [discriminate|].
  intros H. now rewrite (IH H).
Qed.

Lemma split_app (c : ascii) (a b : string) :
  Str.split c (a +++ String c b) = Str.split c a ++ Str.split c b.
Proof.
  induction a as [|d rest IH]; simpl.
  - now rewrite Ascii.eqb_refl.
  - destruct (Ascii.eqb d c); [now rewrite IH|].
    rewrite IH. pose proof (split_not_nil c rest).
    destruct (Str.split c rest); [congruence|reflexivity].
Qed.

(** Splitting the join of separator-free pieces gives the pieces back. *)
Lemma split_join (c : ascii) (xs : list string) :
  xs <> [] ->
  Forall (fun piece => Str.contains c piece = false) xs ->
  Str.split c (Str.join (String c "") xs) = xs.
Proof.
  induction xs as [|x rest IH]; [congruence|].
  intros _ Hfree. inversion Hfree as [|? ? Hx Hrest]; subst.
  destruct rest as [|y rest'].
  - simpl. now apply split_sep_free.
  - rewrite join_cons.
    change (String c "" +++ Str.join (String c "") (y :: rest'))
      with (String c (Str.join (String c "") (y :: rest'))).
    rewrite split_app, (split_sep_free c x Hx), IH by (assumption || discriminate).
    reflexivity.
Qed.

(** ** The handler-to-filename resolver *)

Section ResolverFacts.

Variable getFamily : string -> RuntimeFamily.

(** The resolver on a supported family: the joined all-but-last segments, a
    dot, the extension. *)
Lemma resolver_supported (cfg : FunctionConfiguration) (ext : string) :
  familyExtension (getFamily (Runtime cfg)) = Some ext ->
  getLambdaFileNameFromHandler getFamily cfg =
    Value (Str.join "." (Str.initial (Str.split dot (Handler cfg))) +++ "." +++ ext).
Proof.
  unfold getLambdaFileNameFromHandler, familyExtension.
  destruct (getFamily (Runtime cfg)); intros [= <-]; reflexivity.
Qed.

(** C1.  On a supported runtime family and a handler [H] with at least one
    dot, the resolver returns [base.ext], where [H = base.sym], [sym] is the
    last dot-separated segment of [H] (it has no dot, and the segments of [H]
    are those of [base] followed by [sym]), and [ext] is the extension of the
    family: [py] for Python, [js] for NodeJS. *)
Theorem resolver_strips_last_segment (cfg : FunctionConfiguration) (ext : string) :
  familyExtension (getFamily (Runtime cfg)) = Some ext ->
  Str.contains dot (Handler cfg) = true ->
  exists base sym : string,
    Handler cfg = base +++ "." +++ sym /\
    Str.contains dot sym = false /\
    Str.split dot (Handler cfg) = Str.split dot base ++ [sym] /\
    getLambdaFileNameFromHandler getFamily cfg = Value (base +++ "." +++ ext).
Proof.
  intros Hext Hdot.
  destruct (handler_decomposition dot (Handler cfg) Hdot)
    as (sym & Hsym & Hsplit & Hnn & Hjoin).
  exists (Str.join "." (Str.initial (Str.split dot (Handler cfg)))), sym.
  repeat split; try assumption.
  - change "."%string with (String dot "").
    rewrite split_join; [exact Hsplit|exact Hnn|].
    pose proof (split_pieces_sep_free dot (Handler cfg)) as Hfree.
    rewrite Hsplit, Forall_app in Hfree. apply Hfree.
  - now apply resolver_supported.
Qed.

(** C2.  On a runtime identifier whose family is neither Python nor NodeJS
    the resolver throws an error whose message ends with the runtime
    identifier, and returns no file name. *)
Theorem resolver_unsupported_runtime (cfg : FunctionConfiguration) :
  getFamily (Runtime cfg) <> Python ->
  getFamily (Runtime cfg) <> NodeJS ->
  getLambdaFileNameFromHandler getFamily cfg =
    Throw (Err ("Toolkit does not currently support imports for runtime: "
                  +++ Runtime cfg)) /\
  forall fileName : string,
    getLambdaFileNameFromHandler getFamily cfg <> Value fileName.
Proof.
  unfold getLambdaFileNameFromHandler.
  destruct (getFamily (Runtime cfg)); try congruence.
  intros _ _. split; [reflexivity|discriminate].
Qed.

(** C10.  On a supported runtime family the resolver returns a file name for
    every handler string, and for a handler without a dot that name is a dot
    followed by the extension. *)
Theorem resolver_total_on_supported (cfg : FunctionConfiguration) (ext : string) :
  familyExtension (getFamily (Runtime cfg)) = Some ext ->
  (exists fileName : string,
     getLambdaFileNameFromHandler getFamily cfg = Value fileName) /\
  (Str.contains dot (Handler cfg) = false ->
   getLambdaFileNameFromHandler getFamily cfg = Value ("." +++ ext)).
Proof.
  intros Hext. rewrite (resolver_supported cfg ext Hext). split.
  - eexists. reflexivity.
  - intros Hnodot. now rewrite (split_sep_free dot _ Hnodot).
Qed.

End ResolverFacts.

Example resolver_python_app_handler :
  getLambdaFileNameFromHandler sampleGetFamily
    (sampleConfiguration "python3.8" "app.handler") = Value "app.py".
Proof. reflexivity. Qed.

Example resolver_nodejs_nested_handler :
  getLambdaFileNameFromHandler sampleGetFamily
    (sampleConfiguration "nodejs12.x" "a.b.c.main") = Value "a.b.c.js".
Proof. reflexivity. Qed.

Example resolver_base_of_nested_handler :
  Str.join "." (Str.initial (Str.split dot "dir.sub.app.handler")) = "dir.sub.app".
Proof. reflexivity. Qed.

Lemma resolver_strips_last_segment_witness :
  exists base sym : string,
    "src.app.handler" = base +++ "." +++ sym /\
    Str.contains dot sym = false /\
    Str.split dot "src.app.handler" = Str.split dot base ++ [sym] /\
    getLambdaFileNameFromHandler sampleGetFamily
      (sampleConfiguration "python3.8" "src.app.handler") = Value (base +++ "." +++ "py").
Proof.
  apply (resolver_strips_last_segment sampleGetFamily
           (sampleConfiguration "python3.8" "src.app.handler") "py");
    reflexivity.
Defined.

Lemma resolver_unsupported_runtime_witness :
  getLambdaFileNameFromHandler sampleGetFamily
    (sampleConfiguration "ruby2.7" "app.handler") =
    Throw (Err "Toolkit does not currently support imports for runtime: ruby2.7") /\
  forall fileName : string,
    getLambdaFileNameFromHandler sampleGetFamily
      (sampleConfiguration "ruby2.7" "app.handler") <> Value fileName.
Proof.
  apply (resolver_unsupported_runtime sampleGetFamily
           (sampleConfiguration "ruby2.7" "app.handler"));
    vm_compute; discriminate.
Defined.

Lemma resolver_total_on_supported_witness :
  (exists fileName : string,
     getLambdaFileNameFromHandler sampleGetFamily
       (sampleConfiguration "nodejs12.x" "handler") = Value fileName) /\
  (Str.contains dot "handler" = false ->
   getLambdaFileNameFromHandler sampleGetFamily
     (sampleConfiguration "nodejs12.x" "handler") = Value ".js").
Proof.
  apply (resolver_total_on_supported sampleGetFamily
           (sampleConfiguration "nodejs12.x" "handler") "js").
  reflexivity.
Defined.

(** ** Runs of asynchronous functions *)

Lemma trace_bind {A B : Type} (m : Async A) (k : A -> Async B) :
  trace (bind m k) =
  trace m ++ match outcome m with
             | Returned a => trace (k a)
             | _ => []
             end.
Proof.
  destruct m as [t [a|e|]]; cbn; try now rewrite app_nil_r.
  now destruct (k a).
Qed.

Lemma outcome_bind {A B : Type} (m : Async A) (k : A -> Async B) :
  outcome (bind m k) =
  match outcome m with
  | Returned a => outcome (k a)
  | Thrown e => Thrown e
  | NeverSettles => NeverSettles
  end.
Proof.
  destruct m as [t [a|e|]]; cbn; try reflexivity.
  now destruct (k a).
Qed.

Lemma bind_ret_l {A B : Type} (a : A) (k : A -> Async B) :
  bind (ret a) k = k a.
Proof. unfold bind, ret. now destruct (k a). Qed.

Lemma trace_tryCatch {A : Type} (m : Async A) (h : JsError -> Async A) :
  trace (tryCatch m h) =
  trace m ++ match outcome m with
             | Thrown e => trace (h e)
             | _ => []
             end.
Proof.
  destruct m as [t [a|e|]]; cbn; try now rewrite app_nil_r.
  now destruct (h e).
Qed.

Lemma outcome_tryCatch {A : Type} (m : Async A) (h : JsError -> Async A) :
  outcome (tryCatch m h) =
  match outcome m with
  | Thrown e => outcome (h e)
  | o => o
  end.
Proof.
  destruct m as [t [a|e|]]; cbn; try reflexivity.
  now destruct (h e).
Qed.

Lemma progressIncrements_app (t u : list Call) :
  progressIncrements (t ++ u) = progressIncrements t ++ progressIncrements u.
Proof.
  induction t as [|c t IH]; [reflexivity|].
  destruct c; simpl; now rewrite ?IH.
Qed.

Lemma packedFolders_app (t u : list Call) :
  packedFolders (t ++ u) = packedFolders t ++ packedFolders u.
Proof.
  induction t as [|c t IH]; [reflexivity|].
  destruct c; simpl; now rewrite ?IH.
Qed.

(** *** The download promise *)

Lemma downloadPromise_outcome (events : list RequestEvent) :
  outcome (downloadPromise events) =
  if completes events then Returned tt else NeverSettles.
Proof.
  induction events as [|ev rest IH]; [reflexivity|].
  destruct ev; cbn [downloadPromise completes existsb orb];
    try reflexivity;
    rewrite outcome_bind; cbn; exact IH.
Qed.

Lemma downloadPromise_no_progress (events : list RequestEvent) :
  progressIncrements (trace (downloadPromise events)) = [].
Proof.
  induction events as [|ev rest IH]; [reflexivity|].
  destruct ev; cbn [downloadPromise]; try reflexivity;
    rewrite trace_bind; cbn; exact IH.
Qed.

Lemma downloadPromise_no_error_message (events : list RequestEvent) :
  existsb isShowErrorMessage (trace (downloadPromise events)) = false.
Proof.
  induction events as [|ev rest IH]; [reflexivity|].
  destruct ev; cbn [downloadPromise]; try reflexivity;
    rewrite trace_bind; cbn; exact IH.
Qed.

(** An ['error'] event that comes before any ['complete'] is thrown by its
    listener into the event loop. *)
Lemma downloadPromise_error_uncaught (events : list RequestEvent) (m : string) :
  completes events = false ->
  In (OnError m) events ->
  In (UncaughtException (Err m)) (trace (downloadPromise events)).
Proof.
  induction events as [|ev rest IH]; [intros _ []|].
  intros Hc [->|Hin].
  - cbn [downloadPromise]. rewrite trace_bind. now left.
  - destruct ev; cbn in Hc; try discriminate;
      cbn [downloadPromise]; rewrite trace_bind; cbn; right; now apply IH.
Qed.

(** ** The import command *)

Section ImportFacts.

Variable platform : Platform.
Variable world : World.
Variable functionNode : LambdaFunctionNode.
Variable importLocation : string.

(** Whatever [downloadAndUnzipLambda] throws is an [ImportError]. *)
Lemma downloadAndUnzipLambda_throws_ImportError (e : JsError) :
  outcome (downloadAndUnzipLambda platform world functionNode importLocation) = Thrown e ->
  e = ImportError.
Proof.
  unfold downloadAndUnzipLambda. rewrite outcome_tryCatch.
  match goal with |- context [outcome ?m] => destruct (outcome m) end;
    cbn; congruence.
Qed.

(** C3.  When the request emits no ['complete'] event (a connection failure:
    an ['error'] event and nothing after it), [downloadAndUnzipLambda] does
    not end with an error: its promise never settles, no error message is
    shown, and each ['error'] event is an exception raised in the event loop. *)
Theorem download_transport_error_never_settles (tempFolder codeLocation : string) :
  makeTemporaryToolkitFolder world = Ok tempFolder ->
  getFunction world = Ok codeLocation ->
  completes (requestEvents world) = false ->
  let run := downloadAndUnzipLambda platform world functionNode importLocation in
  outcome run = NeverSettles /\
  existsb isShowErrorMessage (trace run) = false /\
  progressIncrements (trace run) = [10%Z] /\
  forall m : string,
    In (OnError m) (requestEvents world) ->
    In (UncaughtException (Err m)) (trace run).
Proof.
  intros Htmp Hget Hc run. subst run. unfold downloadAndUnzipLambda.
  rewrite Htmp, Hget.
  pose proof (downloadPromise_outcome (requestEvents world)) as Ho.
  pose proof (downloadPromise_no_progress (requestEvents world)) as Hp.
  pose proof (downloadPromise_no_error_message (requestEvents world)) as He.
  pose proof (downloadPromise_error_uncaught (requestEvents world)) as Hu.
  rewrite Hc in Ho. specialize (fun m => Hu m Hc).
  destruct (downloadPromise (requestEvents world)) as [t o].
  cbn in Ho, Hp, He, Hu |- *. subst o. cbn.
  repeat split; try assumption.
  - now rewrite Hp.
  - intros m Hin. do 6 right. now apply Hu.
Qed.

(** When the download or the extraction fails, the import task does not
    return [Succeeded]. *)
Lemma importTask_not_succeeded_without_download (workspaceFolder : WorkspaceFolder) :
  outcome (downloadAndUnzipLambda platform world functionNode importLocation)
    <> Returned tt ->
  outcome (importTask platform world functionNode importLocation workspaceFolder)
    <> Returned Succeeded.
Proof.
  intros Hfail. unfold importTask.
  destruct (getLambdaFileNameFromHandler _ _) as [fileName|e]; [|discriminate].
  cbn [sync]. rewrite bind_ret_l.
  pose proof downloadAndUnzipLambda_throws_ImportError as Himp.
  destruct (downloadAndUnzipLambda platform world functionNode importLocation)
    as [t [[]|e|]]; cbn in Hfail, Himp |- *.
  - congruence.
  - rewrite (Himp e eq_refl). cbn. discriminate.
  - discriminate.
Qed.

(** An exception of [downloadAndUnzipLambda] makes the import task return
    [Failed]. *)
Lemma importTask_failed_on_ImportError (workspaceFolder : WorkspaceFolder)
    (fileName : string) (e : JsError) :
  getLambdaFileNameFromHandler (getFamily platform) (configuration functionNode)
    = Value fileName ->
  outcome (downloadAndUnzipLambda platform world functionNode importLocation)
    = Thrown e ->
  outcome (importTask platform world functionNode importLocation workspaceFolder)
    = Returned Failed.
Proof.
  intros Hname Hthrown. unfold importTask. rewrite Hname.
  cbn [sync]. rewrite bind_ret_l.
  pose proof (downloadAndUnzipLambda_throws_ImportError e Hthrown) as ->.
  destruct (downloadAndUnzipLambda platform world functionNode importLocation)
    as [t o]; cbn in Hthrown |- *. now subst o.
Qed.

(** C4.  When the archive library reports an extraction error from the
    event loop, after a completed download, the import task does not return
    [Failed]: its promise never settles, the error is an exception raised in
    the event loop, and no error message is shown. *)
Theorem import_extraction_error_never_settles (workspaceFolder : WorkspaceFolder)
    (fileName tempFolder codeLocation m : string) :
  getLambdaFileNameFromHandler (getFamily platform) (configuration functionNode)
    = Value fileName ->
  makeTemporaryToolkitFolder world = Ok tempFolder ->
  getFunction world = Ok codeLocation ->
  completes (requestEvents world) = true ->
  extraction world = CallbackInvoked FromEventLoop (Some m) ->
  let run := importTask platform world functionNode importLocation workspaceFolder in
  outcome run = NeverSettles /\
  In (UncaughtException (Err m)) (trace run) /\
  existsb isShowErrorMessage (trace run) = false.
Proof.
  intros Hname Htmp Hget Hc Hex run. subst run.
  unfold importTask, downloadAndUnzipLambda, extractPromise.
  rewrite Hname, Htmp, Hget, Hex.
  pose proof (downloadPromise_outcome (requestEvents world)) as Ho.
  pose proof (downloadPromise_no_error_message (requestEvents world)) as He.
  rewrite Hc in Ho.
  destruct (downloadPromise (requestEvents world)) as [t o].
  cbn in Ho, He |- *. subst o. cbn.
  repeat split.
  - do 6 right. apply in_or_app. right. cbn. tauto.
  - rewrite existsb_app, He. reflexivity.
Qed.

(** The post-import steps throw plain errors, never an [ImportError]. *)
Lemma openLambdaFile_not_ImportError (lambdaLocation : string) (e : JsError) :
  outcome (openLambdaFile world lambdaLocation) = Thrown e ->
  instanceOfImportError e = false.
Proof.
  unfold openLambdaFile.
  destruct (fileExists world lambdaLocation) as [[]|]; cbn;
    destruct (openTextDocument world); cbn;
    destruct (showTextDocument world); cbn;
    intros [= <-]; reflexivity.
Qed.

Lemma addLaunchConfigEntry_not_ImportError (lambdaLocation : string)
    (workspaceFolder : WorkspaceFolder) (e : JsError) :
  outcome (addLaunchConfigEntry platform world lambdaLocation functionNode workspaceFolder)
    = Thrown e ->
  instanceOfImportError e = false.
Proof.
  unfold addLaunchConfigEntry.
  destruct (handlerPathReferenced world); cbn;
    destruct (addDebugConfiguration world); cbn;
    intros [= <-]; reflexivity.
Qed.

(** The post-import steps settle: they return or throw. *)
Lemma openLambdaFile_settles (lambdaLocation : string) :
  outcome (openLambdaFile world lambdaLocation) <> NeverSettles.
Proof.
  unfold openLambdaFile.
  destruct (fileExists world lambdaLocation) as [[]|]; cbn;
    destruct (openTextDocument world); cbn;
    destruct (showTextDocument world); cbn; discriminate.
Qed.

Lemma addLaunchConfigEntry_settles (lambdaLocation : string)
    (workspaceFolder : WorkspaceFolder) :
  outcome (addLaunchConfigEntry platform world lambdaLocation functionNode workspaceFolder)
    <> NeverSettles.
Proof.
  unfold addLaunchConfigEntry.
  destruct (handlerPathReferenced world); cbn;
    destruct (addDebugConfiguration world); cbn; discriminate.
Qed.

(** C5.  When the download and the extraction succeed and a post-import
    step (opening the handler file, adding the debug configuration) throws,
    the import task returns [Succeeded], and the exception is not an
    [ImportError]. *)
Theorem post_import_failure_still_succeeds (workspaceFolder : WorkspaceFolder)
    (fileName : string) (e : JsError) :
  getLambdaFileNameFromHandler (getFamily platform) (configuration functionNode)
    = Value fileName ->
  outcome (downloadAndUnzipLambda platform world functionNode importLocation)
    = Returned tt ->
  let lambdaLocation := path_join platform [importLocation; fileName] in
  outcome (openLambdaFile world lambdaLocation) = Thrown e \/
  outcome (addLaunchConfigEntry platform world lambdaLocation functionNode workspaceFolder)
    = Thrown e ->
  outcome (importTask platform world functionNode importLocation workspaceFolder)
    = Returned Succeeded /\
  instanceOfImportError e = false.
Proof.
  intros Hname Hdl lambdaLocation Hpost. split.
  - unfold importTask. rewrite Hname. cbn [sync]. rewrite bind_ret_l.
    fold lambdaLocation.
    rewrite outcome_tryCatch, !outcome_bind, Hdl.
    pose proof (openLambdaFile_not_ImportError lambdaLocation) as Hopen.
    pose proof (addLaunchConfigEntry_not_ImportError lambdaLocation workspaceFolder)
      as Hadd.
    pose proof (openLambdaFile_settles lambdaLocation) as Hs1.
    pose proof (addLaunchConfigEntry_settles lambdaLocation workspaceFolder) as Hs2.
    destruct (outcome (openLambdaFile world lambdaLocation)) as [[]|e1|].
    + destruct (outcome (addLaunchConfigEntry _ _ _ _ _)) as [[]|e2|].
      * reflexivity.
      * now rewrite (Hadd e2 eq_refl).
      * congruence.
    + now rewrite (Hopen e1 eq_refl).
    + congruence.
  - destruct Hpost as [H|H].
    + now apply (openLambdaFile_not_ImportError _ _ H).
    + now apply (addLaunchConfigEntry_not_ImportError _ _ _ H).
Qed.

(** *** Progress reports *)

(** The reports of [downloadAndUnzipLambda] are an initial part of
    [10; 70; 10]. *)
Lemma downloadAndUnzipLambda_progress :
  exists n : nat,
    progressIncrements
      (trace (downloadAndUnzipLambda platform world functionNode importLocation))
    = firstn n [10; 70; 10]%Z.
Proof.
  unfold downloadAndUnzipLambda, extractPromise.
  destruct (makeTemporaryToolkitFolder world) as [tempFolder|];
    [|now exists 0].
  destruct (getFunction world) as [codeLocation|]; [|now exists 0].
  pose proof (downloadPromise_no_progress (requestEvents world)) as Hp.
  destruct (downloadPromise (requestEvents world)) as [t [[]|e|]];
    cbn in Hp |- *.
  2, 3: repeat (rewrite ?progressIncrements_app, ?Hp; cbn); now exists 1.
  destruct (extraction world) as [m| |[] [m|]]; cbn;
    repeat (rewrite ?progressIncrements_app, ?Hp; cbn);
    try (now exists 2); now exists 3.
Qed.

Lemma openLambdaFile_no_progress (lambdaLocation : string) :
  progressIncrements (trace (openLambdaFile world lambdaLocation)) = [].
Proof.
  unfold openLambdaFile.
  destruct (fileExists world lambdaLocation) as [[]|]; cbn;
    destruct (openTextDocument world); cbn;
    destruct (showTextDocument world); reflexivity.
Qed.

Lemma addLaunchConfigEntry_no_progress (lambdaLocation : string)
    (workspaceFolder : WorkspaceFolder) :
  progressIncrements
    (trace (addLaunchConfigEntry platform world lambdaLocation functionNode
                                 workspaceFolder)) = [].
Proof.
  unfold addLaunchConfigEntry.
  destruct (handlerPathReferenced world); cbn;
    destruct (addDebugConfiguration world); reflexivity.
Qed.

Lemma importTask_progress (workspaceFolder : WorkspaceFolder) :
  exists n : nat,
    progressIncrements
      (trace (importTask platform world functionNode importLocation workspaceFolder))
    = firstn n [10; 70; 10]%Z.
Proof.
  unfold importTask.
  destruct (getLambdaFileNameFromHandler _ _) as [fileName|e]; [|now exists 0].
  cbn [sync]. rewrite bind_ret_l.
  destruct downloadAndUnzipLambda_progress as [n Hn].
  exists n. rewrite trace_tryCatch.
  rewrite (trace_bind (downloadAndUnzipLambda _ _ _ _)).
  rewrite (outcome_bind (downloadAndUnzipLambda _ _ _ _)).
  rewrite !progressIncrements_app, Hn.
  destruct (outcome (downloadAndUnzipLambda _ _ _ _)) as [[]|e|]; cbn [app].
  - rewrite (trace_bind (openLambdaFile _ _)), (outcome_bind (openLambdaFile _ _)).
    rewrite progressIncrements_app, openLambdaFile_no_progress.
    destruct (outcome (openLambdaFile _ _)) as [[]|e|]; cbn [app].
    + rewrite (trace_bind (addLaunchConfigEntry _ _ _ _ _)),
        (outcome_bind (addLaunchConfigEntry _ _ _ _ _)).
      rewrite progressIncrements_app, addLaunchConfigEntry_no_progress.
      destruct (outcome (addLaunchConfigEntry _ _ _ _ _)) as [[]|e|]; cbn;
        try destruct (instanceOfImportError e); cbn; now rewrite ?app_nil_r.
    + destruct (instanceOfImportError e); cbn; now rewrite ?app_nil_r.
    + cbn. now rewrite ?app_nil_r.
  - destruct (instanceOfImportError e); cbn; now rewrite ?app_nil_r.
  - cbn. now rewrite ?app_nil_r.
Qed.

End ImportFacts.

Lemma runImportLambda_progress (platform : Platform) (world : World)
    (functionNode : LambdaFunctionNode) :
  exists n : nat,
    progressIncrements (trace (runImportLambda platform world functionNode))
    = firstn n [10; 70; 10]%Z.
Proof.
  unfold runImportLambda.
  destruct (Nat.eqb _ 0); [now exists 0|].
  destruct (locationPrompt world) as [[selectedUri|]|]; try now exists 0.
  cbn [call bind].
  match goal with
  | |- context [importTask ?p ?w ?f ?l ?wf] =>
      destruct (importTask_progress p w f l wf) as [n Hn];
      destruct (importTask p w f l wf) as [t o]
  end.
  cbn [trace fst] in Hn.
  destruct (pathExists world _) as [[]|]; cbn; try now exists 0.
  - destruct (overwriteConfirmation world) as [[]|]; cbn; try now exists 0.
    destruct (Nat.eqb _ 0); cbn.
    + destruct (addFolderToWorkspace world) as [[]|]; cbn; try now exists 0.
      now exists n.
    + now exists n.
  - destruct (Nat.eqb _ 0); cbn.
    + destruct (addFolderToWorkspace world) as [[]|]; cbn; try now exists 0.
      now exists n.
    + now exists n.
Qed.

(** C9.  In one run of [runImportLambda] every reported increment keeps the
    cumulative progress from decreasing, and the increments add up to at
    most the budget of 100. *)
Theorem import_progress_within_budget (platform : Platform) (world : World)
    (functionNode : LambdaFunctionNode) :
  let increments :=
    progressIncrements (trace (runImportLambda platform world functionNode)) in
  nonDecreasing 0 (cumulative 0 increments) = true /\
  (total increments <= progressBudget)%Z.
Proof.
  destruct (runImportLambda_progress platform world functionNode) as [n Hn].
  cbn zeta. rewrite Hn.
  destruct n as [|[|[|[|n]]]]; cbn; split; (reflexivity || discriminate).
Qed.

(** ** The upload command *)

Section UploadFacts.

Variable platform : Platform.
Variable world : World.
Variable functionNode : LambdaFunctionNode.

(** The handler check always hands control back: it returns an early result
    or falls through; it neither builds nor deploys. *)
Lemma handlerCheck_returns (parentDir : Uri) :
  exists early : option Result,
    outcome (handlerCheck platform world functionNode parentDir) = Returned early /\
    (early = None \/ early = Some Cancelled).
Proof.
  unfold handlerCheck.
  destruct (getLambdaFileNameFromHandler _ _) as [fileName|e]; cbn;
    [|eexists; split; [reflexivity|now left]].
  destruct (fileExists world _) as [[]|]; cbn;
    try (eexists; split; [reflexivity|now left]).
  destruct (handlerConfirmation world) as [[]|]; cbn;
    eexists; split; try reflexivity; tauto.
Qed.

Lemma handlerCheck_quiet (parentDir : Uri) :
  existsb isSamCliBuild (trace (handlerCheck platform world functionNode parentDir))
    = false /\
  existsb isUpdateFunctionCode (trace (handlerCheck platform world functionNode parentDir))
    = false.
Proof.
  unfold handlerCheck.
  destruct (getLambdaFileNameFromHandler _ _) as [fileName|e]; cbn;
    [|now split].
  destruct (fileExists world _) as [[]|]; cbn; try now split.
  destruct (handlerConfirmation world) as [[]|]; cbn; now split.
Qed.

(** When the build fails, the second block of Strategy C never reaches the
    code update, and once the build has been invoked it returns [Failed]
    after showing the message of the build error. *)
Lemma samBuildAndUpload_failed_build (parentDir : Uri) (message : string) :
  samCliBuild world = Raises message ->
  let run := samBuildAndUpload platform world functionNode parentDir in
  existsb isUpdateFunctionCode (trace run) = false /\
  (existsb isSamCliBuild (trace run) = true ->
   outcome run = Returned Failed /\
   In (ShowErrorMessage (Plain message)) (trace run)).
Proof.
  intros Hbuild run. subst run. unfold samBuildAndUpload. rewrite Hbuild.
  destruct (makeTemporaryToolkitFolder world) as [tempDir|]; cbn;
    [|split; [reflexivity|discriminate]].
  destruct (generateTemplate world) as [[]|]; cbn;
    split; try reflexivity; try discriminate.
  intros _. split; [reflexivity|]. tauto.
Qed.

(** Strategy C after the folder dialog: the handler check, then either its
    early result or the second block. *)
Lemma runUploadLambdaWithSamBuild_steps (parentDir : Uri) (early : option Result) :
  openDialog world = Ok (Some [parentDir]) ->
  outcome (handlerCheck platform world functionNode parentDir) = Returned early ->
  let run := runUploadLambdaWithSamBuild platform world functionNode in
  let build := samBuildAndUpload platform world functionNode parentDir in
  trace run =
    ShowOpenDialog true false
      :: trace (handlerCheck platform world functionNode parentDir)
      ++ match early with None => trace build | Some _ => [] end /\
  outcome run =
    match early with None => outcome build | Some result => Returned result end.
Proof.
  intros Hdialog Hearly run build. subst run build.
  unfold runUploadLambdaWithSamBuild. rewrite Hdialog.
  cbn -[handlerCheck samBuildAndUpload].
  destruct (handlerCheck platform world functionNode parentDir) as [th oh].
  cbn in Hearly. subst oh.
  destruct early as [result|]; cbn; [now split|].
  destruct (samBuildAndUpload platform world functionNode parentDir); now split.
Qed.

(** C6.  In Strategy C, when the build fails, [updateFunctionCode] is not
    called, and a run that has invoked the build returns [Failed] after
    showing the message of the build error. *)
Theorem failed_build_prevents_deploy (message : string) :
  samCliBuild world = Raises message ->
  let run := runUploadLambdaWithSamBuild platform world functionNode in
  existsb isUpdateFunctionCode (trace run) = false /\
  (existsb isSamCliBuild (trace run) = true ->
   outcome run = Returned Failed /\
   In (ShowErrorMessage (Plain message)) (trace run)).
Proof.
  intros Hbuild run.
  destruct (openDialog world) as [[[|parentDir [|]]|]|] eqn:Hdialog;
    try (subst run; unfold runUploadLambdaWithSamBuild; rewrite Hdialog;
         cbn; split; [reflexivity|discriminate]).
  destruct (handlerCheck_returns parentDir) as (early & Hearly & Hcases).
  destruct (handlerCheck_quiet parentDir) as [Hnobuild Hnodeploy].
  destruct (samBuildAndUpload_failed_build parentDir message Hbuild)
    as [Hdeploy Hfailed].
  destruct (runUploadLambdaWithSamBuild_steps parentDir early Hdialog Hearly)
    as [Ht Ho].
  subst run. rewrite Ht, Ho. cbn [existsb isUpdateFunctionCode isSamCliBuild orb].
  rewrite !existsb_app, Hnobuild, Hnodeploy. cbn [orb].
  destruct Hcases as [->| ->].
  - split; [exact Hdeploy|].
    intros Hb. destruct (Hfailed Hb) as [Hout Hin]. split; [exact Hout|].
    right. apply in_or_app. now right.
  - split; [reflexivity|discriminate].
Qed.

Lemma buildDirs_app (t u : list Call) :
  buildDirs (t ++ u) = buildDirs t ++ buildDirs u.
Proof.
  induction t as [|c t IH]; [reflexivity|].
  destruct c; simpl; now rewrite ?IH.
Qed.

Lemma templateResourceNames_app (t u : list Call) :
  templateResourceNames (t ++ u) = templateResourceNames t ++ templateResourceNames u.
Proof.
  induction t as [|c t IH]; [reflexivity|].
  destruct c; simpl; now rewrite ?IH.
Qed.

Lemma handlerCheck_no_packaging (parentDir : Uri) :
  let check := handlerCheck platform world functionNode parentDir in
  buildDirs (trace check) = [] /\
  templateResourceNames (trace check) = [] /\
  packedFolders (trace check) = [].
Proof.
  cbn zeta. unfold handlerCheck.
  destruct (getLambdaFileNameFromHandler _ _) as [fileName|e]; cbn;
    [|now repeat split].
  destruct (fileExists world _) as [[]|]; cbn; try now repeat split.
  destruct (handlerConfirmation world) as [[]|]; cbn; now repeat split.
Qed.

(** After a successful build the second block packs the folder named after
    the resource inside the build directory, and nothing else. *)
Lemma samBuildAndUpload_packs (parentDir : Uri) :
  samCliBuild world = Ok tt ->
  let run := samBuildAndUpload platform world functionNode parentDir in
  existsb isSamCliBuild (trace run) = true ->
  exists buildDir resourceName : string,
    buildDirs (trace run) = [buildDir] /\
    templateResourceNames (trace run) = [resourceName] /\
    packedFolders (trace run) = [path_join platform [buildDir; resourceName]].
Proof.
  intros Hbuild run. subst run.
  unfold samBuildAndUpload, zipAndUploadDirectory, uploadZipBuffer.
  rewrite Hbuild.
  destruct (makeTemporaryToolkitFolder world) as [tempDir|]; cbn;
    [|discriminate].
  destruct (generateTemplate world) as [[]|]; cbn; [|discriminate].
  intros _.
  exists (path_join platform [tempDir; "output"]), "tempResource".
  destruct (zipLocalFolder world _) as [zipBuffer|]; cbn;
    [destruct (updateFunctionCode world) as [[]|]; cbn|]; now repeat split.
Qed.

(** C7.  In Strategy C, after a successful build, exactly one directory is
    packed: the one named after the resource of the generated template,
    inside the build directory given to the build. *)
Theorem packs_resource_subdirectory :
  samCliBuild world = Ok tt ->
  let run := runUploadLambdaWithSamBuild platform world functionNode in
  existsb isSamCliBuild (trace run) = true ->
  exists buildDir resourceName : string,
    buildDirs (trace run) = [buildDir] /\
    templateResourceNames (trace run) = [resourceName] /\
    packedFolders (trace run) = [path_join platform [buildDir; resourceName]].
Proof.
  intros Hbuild run.
  destruct (openDialog world) as [[[|parentDir [|]]|]|] eqn:Hdialog;
    try (subst run; unfold runUploadLambdaWithSamBuild; rewrite Hdialog;
         cbn; discriminate).
  destruct (handlerCheck_returns parentDir) as (early & Hearly & Hcases).
  destruct (handlerCheck_quiet parentDir) as [Hnobuild _].
  destruct (handlerCheck_no_packaging parentDir) as (Hb & Ht & Hp).
  destruct (runUploadLambdaWithSamBuild_steps parentDir early Hdialog Hearly)
    as [Htrace _].
  subst run. rewrite Htrace.
  cbn [existsb isSamCliBuild orb buildDirs templateResourceNames packedFolders].
  rewrite existsb_app, buildDirs_app, templateResourceNames_app, packedFolders_app.
  rewrite Hnobuild, Hb, Ht, Hp. cbn [orb app].
  destruct Hcases as [->| ->]; [|discriminate].
  now apply samBuildAndUpload_packs.
Qed.

(** The second block of Strategy C asks the user nothing. *)
Lemma samBuildAndUpload_no_prompt (parentDir : Uri) :
  existsb isConfirmationPrompt
    (trace (samBuildAndUpload platform world functionNode parentDir)) = false.
Proof.
  unfold samBuildAndUpload, zipAndUploadDirectory, uploadZipBuffer.
  destruct (makeTemporaryToolkitFolder world) as [tempDir|]; cbn; [|reflexivity].
  destruct (generateTemplate world) as [[]|]; cbn; [|reflexivity].
  destruct (samCliBuild world) as [[]|]; cbn; [|reflexivity].
  destruct (zipLocalFolder world _) as [zipBuffer|]; cbn;
    [destruct (updateFunctionCode world) as [[]|]; cbn|]; reflexivity.
Qed.

(** C8.  Strategy C, once a directory is selected, resolves the handler file
    name inside it before the build.  When the file is absent the user is
    asked: if the answer is no the run returns [Cancelled] without a build;
    if the answer is yes the run goes on with the build block, after the
    prompt.  When the resolver throws (unsupported runtime) the run goes on
    with the build block without any prompt. *)
Theorem handler_check_before_build (parentDir : Uri) :
  openDialog world = Ok (Some [parentDir]) ->
  let run := runUploadLambdaWithSamBuild platform world functionNode in
  let build := samBuildAndUpload platform world functionNode parentDir in
  let resolved :=
    getLambdaFileNameFromHandler (getFamily platform) (configuration functionNode) in
  (forall fileName : string,
     resolved = Value fileName ->
     let handlerFile := path_join platform [fsPath parentDir; fileName] in
     let prompt :=
       ShowConfirmationMessage
         (Localized "AWS.lambda.upload.handlerNotFound"
                    [Handler (configuration functionNode); handlerFile]) in
     fileExists world handlerFile = Ok false ->
     (handlerConfirmation world = Ok false ->
      outcome run = Returned Cancelled /\
      In prompt (trace run) /\
      existsb isSamCliBuild (trace run) = false) /\
     (handlerConfirmation world = Ok true ->
      trace run =
        [ShowOpenDialog true false; FileExists handlerFile; prompt] ++ trace build /\
      outcome run = outcome build)) /\
  (forall e : JsError,
     resolved = Throw e ->
     existsb isConfirmationPrompt (trace run) = false /\
     trace run =
       [ShowOpenDialog true false;
        Log LInfo (Plain "Attempting to build a runtime not supported by Toolkit. Ignoring handler check.")]
       ++ trace build /\
     outcome run = outcome build).
Proof.
  intros Hdialog run build resolved. subst resolved. split.
  - intros fileName Hname handlerFile prompt Habsent. split; intros Hanswer.
    + assert (Hcheck :
        handlerCheck platform world functionNode parentDir =
        ([FileExists handlerFile; prompt;
          Log LInfo (Plain "Handler file not found. Aborting runUploadLambdaWithSamBuild")],
         Returned (Some Cancelled))).
      { unfold handlerCheck. rewrite Hname. cbn. fold handlerFile.
        rewrite Habsent. cbn. rewrite Hanswer. reflexivity. }
      destruct (runUploadLambdaWithSamBuild_steps parentDir (Some Cancelled) Hdialog)
        as [Ht Ho]; [now rewrite Hcheck|].
      subst run. rewrite Ht, Ho, Hcheck. cbn. repeat split. tauto.
    + assert (Hcheck :
        handlerCheck platform world functionNode parentDir =
        ([FileExists handlerFile; prompt], Returned None)).
      { unfold handlerCheck. rewrite Hname. cbn. fold handlerFile.
        rewrite Habsent. cbn. rewrite Hanswer. reflexivity. }
      destruct (runUploadLambdaWithSamBuild_steps parentDir None Hdialog)
        as [Ht Ho]; [now rewrite Hcheck|].
      subst run. rewrite Ht, Ho, Hcheck. now split.
  - intros e He.
    assert (Hcheck :
      handlerCheck platform world functionNode parentDir =
      ([Log LInfo (Plain "Attempting to build a runtime not supported by Toolkit. Ignoring handler check.")],
       Returned None)).
    { unfold handlerCheck. rewrite He. reflexivity. }
    destruct (runUploadLambdaWithSamBuild_steps parentDir None Hdialog)
      as [Ht Ho]; [now rewrite Hcheck|].
    subst run. rewrite Ht, Ho, Hcheck. repeat split.
    cbn. apply samBuildAndUpload_no_prompt.
Qed.

End UploadFacts.

(** ** Concrete runs *)

Example import_happy_run :
  outcome (runImportLambda samplePlatform happyWorld pythonNode) = Returned Succeeded /\
  progressIncrements (trace (runImportLambda samplePlatform happyWorld pythonNode))
    = [10; 70; 10]%Z.
Proof. split; reflexivity. Qed.

(** On a connection failure the whole import command stays pending: no
    result, no error message, no telemetry. *)
Example import_connection_failure_run :
  importLambdaCommand samplePlatform connectionFailure pythonNode =
  ([PromptUserForLocation;
    PathExists "/work/fn1/";
    WithProgress (Localized "AWS.lambda.import.status" ["fn1"; "/work/fn1/"]);
    MakeTemporaryToolkitFolder;
    AddDisposableFolder "/tmp/aws-toolkit-vscode/1";
    GetFunction "arn:aws:lambda:us-west-2:123456789012:function:fn1";
    ProgressReport 10;
    Log LDebug (Plain "Starting Lambda download...");
    RequestGet "https://lambda.example/code/fn1.zip"
               "/tmp/aws-toolkit-vscode/1/function.zip";
    UncaughtException (Err "connect ECONNREFUSED")],
   NeverSettles).
Proof. reflexivity. Qed.

(** A response with an error status followed by ['complete'] is a completed
    download for the command: it goes on to the extraction. *)
Example import_error_status_run :
  progressIncrements
    (trace (downloadAndUnzipLambda samplePlatform
              (sampleWorld [OnResponse 403; OnComplete] extractionOk true true (Ok tt))
              pythonNode "/work/fn1/")) = [10; 70; 10]%Z /\
  outcome (downloadAndUnzipLambda samplePlatform
             (sampleWorld [OnResponse 403; OnComplete] extractionOk true true (Ok tt))
             pythonNode "/work/fn1/") = Returned tt.
Proof. split; reflexivity. Qed.

(** An exception of the archive constructor is caught: [Failed]. *)
Example import_invalid_zip_run :
  outcome (runImportLambda samplePlatform
             (sampleWorld [OnResponse 200; OnComplete]
                          (ConstructorThrows "Invalid or unsupported zip format")
                          true true (Ok tt))
             pythonNode) = Returned Failed.
Proof. reflexivity. Qed.

Example import_extraction_failure_run :
  outcome (runImportLambda samplePlatform extractionFailure pythonNode) = NeverSettles.
Proof. reflexivity. Qed.

(** The archive has no handler file: the warning is shown and the import is
    still reported as [Succeeded]. *)
Example import_missing_handler_file_run :
  outcome (runImportLambda samplePlatform handlerFileMissing pythonNode)
    = Returned Succeeded /\
  In (ShowWarningMessage
        (Localized "AWS.lambda.import.fileNotFound" ["/work/fn1/app.py"]))
     (trace (runImportLambda samplePlatform handlerFileMissing pythonNode)).
Proof. split; [reflexivity|cbn; tauto]. Qed.

Example import_unsupported_runtime_run :
  outcome (runImportLambda samplePlatform happyWorld rubyNode) =
  Thrown (Err "Toolkit does not currently support imports for runtime: ruby2.7").
Proof. reflexivity. Qed.

Example upload_happy_run :
  runUploadLambdaWithSamBuild samplePlatform happyWorld pythonNode =
  ([ShowOpenDialog true false;
    FileExists "/work/app.py";
    MakeTemporaryToolkitFolder;
    AddDisposableFolder "/tmp/aws-toolkit-vscode/1";
    GenerateTemplate "app.handler" "tempResource" "python3.8" "/work"
                     "/tmp/aws-toolkit-vscode/1/template.yaml";
    SamCliBuild "/tmp/aws-toolkit-vscode/1/output"
                "/tmp/aws-toolkit-vscode/1/template.yaml" "/work" true false;
    AddLocalFolder "/tmp/aws-toolkit-vscode/1/output/tempResource";
    UpdateFunctionCode "fn1" "PK"],
   Returned Succeeded).
Proof. reflexivity. Qed.

Example upload_unsupported_runtime_run :
  existsb isConfirmationPrompt
    (trace (runUploadLambdaWithSamBuild samplePlatform missingHandlerAccepted rubyNode))
    = false /\
  existsb isSamCliBuild
    (trace (runUploadLambdaWithSamBuild samplePlatform missingHandlerAccepted rubyNode))
    = true.
Proof. split; reflexivity. Qed.

(** ** The theorems at concrete inputs *)

Lemma download_transport_error_never_settles_witness :
  let run := downloadAndUnzipLambda samplePlatform connectionFailure pythonNode
                                    "/work/fn1/" in
  outcome run = NeverSettles /\
  existsb isShowErrorMessage (trace run) = false /\
  progressIncrements (trace run) = [10%Z] /\
  forall m : string,
    In (OnError m) (requestEvents connectionFailure) ->
    In (UncaughtException (Err m)) (trace run).
Proof.
  apply (download_transport_error_never_settles samplePlatform connectionFailure
           pythonNode "/work/fn1/" "/tmp/aws-toolkit-vscode/1"
           "https://lambda.example/code/fn1.zip");
    reflexivity.
Defined.

Lemma import_extraction_error_never_settles_witness :
  let run := importTask samplePlatform extractionFailure pythonNode "/work/fn1/"
                        (getWorkspaceFolder extractionFailure "/work/fn1/") in
  outcome run = NeverSettles /\
  In (UncaughtException (Err "Unable to write")) (trace run) /\
  existsb isShowErrorMessage (trace run) = false.
Proof.
  apply (import_extraction_error_never_settles samplePlatform extractionFailure
           pythonNode "/work/fn1/" (getWorkspaceFolder extractionFailure "/work/fn1/")
           "app.py" "/tmp/aws-toolkit-vscode/1" "https://lambda.example/code/fn1.zip"
           "Unable to write");
    reflexivity.
Defined.

Lemma post_import_failure_still_succeeds_witness :
  outcome (importTask samplePlatform handlerFileMissing pythonNode "/work/fn1/"
                      (getWorkspaceFolder handlerFileMissing "/work/fn1/"))
    = Returned Succeeded /\
  instanceOfImportError (Err "") = false.
Proof.
  apply (post_import_failure_still_succeeds samplePlatform handlerFileMissing
           pythonNode "/work/fn1/" (getWorkspaceFolder handlerFileMissing "/work/fn1/")
           "app.py" (Err "")).
  - reflexivity.
  - reflexivity.
  - left. reflexivity.
Defined.

Lemma failed_build_prevents_deploy_witness :
  let run := runUploadLambdaWithSamBuild samplePlatform buildFailure pythonNode in
  existsb isUpdateFunctionCode (trace run) = false /\
  (existsb isSamCliBuild (trace run) = true ->
   outcome run = Returned Failed /\
   In (ShowErrorMessage (Plain "sam build failed")) (trace run)).
Proof.
  apply (failed_build_prevents_deploy samplePlatform buildFailure pythonNode
           "sam build failed").
  reflexivity.
Defined.

Lemma packs_resource_subdirectory_witness :
  let run := runUploadLambdaWithSamBuild samplePlatform happyWorld pythonNode in
  exists buildDir resourceName : string,
    buildDirs (trace run) = [buildDir] /\
    templateResourceNames (trace run) = [resourceName] /\
    packedFolders (trace run) = [path_join samplePlatform [buildDir; resourceName]].
Proof.
  apply (packs_resource_subdirectory samplePlatform happyWorld pythonNode);
    reflexivity.
Defined.

Lemma handler_check_before_build_witness :
  let run := runUploadLambdaWithSamBuild samplePlatform missingHandlerDeclined
                                         pythonNode in
  outcome run = Returned Cancelled /\
  In (ShowConfirmationMessage
        (Localized "AWS.lambda.upload.handlerNotFound" ["app.handler"; "/work/app.py"]))
     (trace run) /\
  existsb isSamCliBuild (trace run) = false.
Proof.
  destruct (handler_check_before_build samplePlatform missingHandlerDeclined
              pythonNode sampleUri eq_refl) as [Habsent _].
  destruct (Habsent "app.py" eq_refl eq_refl) as [Hdeclined _].
  exact (Hdeclined eq_refl).
Defined.

(** ** More on the resolver *)

Lemma contains_append (c : ascii) (a b : string) :
  Str.contains c (a +++ b) = Str.contains c a || Str.contains c b.
Proof.
  induction a as [|d rest IH]; simpl; [reflexivity|].
  now rewrite IH, orb_assoc.
Qed.

Lemma split_pieces_free_of (c sep : ascii) (s : string) :
  Str.contains c s = false ->
  Forall (fun piece => Str.contains c piece = false) (Str.split sep s).
Proof.
  induction s as [|d rest IH]; simpl.
  - intros _. constructor; [reflexivity|constructor].
  - intros H. apply orb_false_elim in H as [Hd Hrest].
    specialize (IH Hrest).
    destruct (Ascii.eqb d sep).
    + constructor; [reflexivity|exact IH].
    + destruct (Str.split sep rest) as [|p ps].
      * constructor; [simpl; now rewrite Hd|constructor].
      * inversion IH; subst. constructor; [simpl; now rewrite Hd|assumption].
Qed.

Lemma Forall_initial {A : Type} (P : A -> Prop) (xs : list A) :
  Forall P xs -> Forall P (Str.initial xs).
Proof.
  unfold Str.initial. induction 1 as [|x rest Hx Hrest IH]; [constructor|].
  destruct rest as [|y rest']; [constructor|].
  change (removelast (x :: y :: rest')) with (x :: removelast (y :: rest')).
  now constructor.
Qed.

Lemma join_free_of (c : ascii) (sep : string) (xs : list string) :
  Str.contains c sep = false ->
  Forall (fun piece => Str.contains c piece = false) xs ->
  Str.contains c (Str.join sep xs) = false.
Proof.
  intros Hsep. induction 1 as [|x rest Hx Hrest IH]; [reflexivity|].
  destruct rest as [|y rest']; [exact Hx|].
  rewrite join_cons, !contains_append, Hx, Hsep. exact IH.
Qed.

Lemma initial_split_symbol (base sym : string) :
  Str.contains dot sym = false ->
  Str.initial (Str.split dot (base +++ "." +++ sym)) = Str.split dot base.
Proof.
  intros Hsym. change ("." +++ sym) with (String dot sym).
  rewrite split_app, (split_sep_free dot sym Hsym).
  unfold Str.initial. apply removelast_last.
Qed.

Section ResolverMore.

Variable getFamily : string -> RuntimeFamily.

(** X1.  The resolver does not look at the last segment of the handler: two
    handlers [base.sym1] and [base.sym2] with dot-free [sym1] and [sym2]
    resolve alike, to the same file name or to the same error. *)
Theorem resolver_ignores_symbol_name (cfg : FunctionConfiguration)
    (base sym1 sym2 : string) :
  Str.contains dot sym1 = false ->
  Str.contains dot sym2 = false ->
  getLambdaFileNameFromHandler getFamily (withHandler (base +++ "." +++ sym1) cfg) =
  getLambdaFileNameFromHandler getFamily (withHandler (base +++ "." +++ sym2) cfg).
Proof.
  intros H1 H2. unfold getLambdaFileNameFromHandler, withHandler.
  cbn [Runtime Handler].
  now rewrite (initial_split_symbol base sym1 H1), (initial_split_symbol base sym2 H2).
Qed.

(** X2.  The resolver keeps the dots of the module path: when the handler
    has no [/], the file name it returns has none either, so that a handler
    in a nested module names no file in a subdirectory. *)
Theorem resolver_adds_no_path_separator (cfg : FunctionConfiguration)
    (fileName : string) :
  Str.contains "/" (Handler cfg) = false ->
  getLambdaFileNameFromHandler getFamily cfg = Value fileName ->
  Str.contains "/" fileName = false.
Proof.
  intros Hfree. unfold getLambdaFileNameFromHandler.
  assert (Hbase :
    Str.contains "/" (Str.join "." (Str.initial (Str.split dot (Handler cfg)))) = false).
  { apply join_free_of; [reflexivity|].
    apply Forall_initial. now apply split_pieces_free_of. }
  destruct (getFamily (Runtime cfg)); intros [= <-];
    now rewrite !contains_append, Hbase.
Qed.

End ResolverMore.

Lemma resolver_ignores_symbol_name_witness :
  getLambdaFileNameFromHandler sampleGetFamily
    (withHandler "src.app.handler" (sampleConfiguration "python3.8" "")) =
  getLambdaFileNameFromHandler sampleGetFamily
    (withHandler "src.app.other" (sampleConfiguration "python3.8" "")).
Proof.
  apply (resolver_ignores_symbol_name sampleGetFamily
           (sampleConfiguration "python3.8" "") "src.app" "handler" "other");
    reflexivity.
Defined.

Lemma resolver_adds_no_path_separator_witness :
  Str.contains "/" "src.app.py" = false.
Proof.
  apply (resolver_adds_no_path_separator sampleGetFamily
           (sampleConfiguration "python3.8" "src.app.handler") "src.app.py");
    reflexivity.
Defined.

(** ** More on the import command *)

(** The listeners of the download only log, or throw into the event loop. *)
Lemma downloadPromise_calls (events : list RequestEvent) (c : Call) :
  In c (trace (downloadPromise events)) ->
  match c with
  | Log _ _ | UncaughtException _ => True
  | _ => False
  end.
Proof.
  induction events as [|ev rest IH]; [intros []|].
  destruct ev; cbn [downloadPromise]; try rewrite trace_bind; cbn;
    intros [<-|H]; try exact I; now (apply IH || destruct H).
Qed.

Ltac split_in H :=
  repeat match type of H with
  | In _ (_ :: _) => destruct H as [H|H]; [try discriminate H|]
  | _ \/ _ => destruct H as [H|H]; [try discriminate H|]
  | False => destruct H
  | In _ (_ ++ _) => apply in_app_or in H; destruct H as [H|H]
  | In _ [] => destruct H
  end.

Section ImportMore.

Variable platform : Platform.
Variable world : World.
Variable functionNode : LambdaFunctionNode.
Variable importLocation : string.

(** [downloadAndUnzipLambda] extracts into the import location, with
    overwriting. *)
Lemma downloadAndUnzipLambda_extraction (target : string) (overwrite : bool) :
  In (ExtractAllToAsync target overwrite)
     (trace (downloadAndUnzipLambda platform world functionNode importLocation)) ->
  target = importLocation /\ overwrite = true.
Proof.
  unfold downloadAndUnzipLambda, extractPromise.
  destruct (makeTemporaryToolkitFolder world) as [tempFolder|];
    [|cbn; intros H; split_in H].
  destruct (getFunction world) as [codeLocation|];
    [|cbn; intros H; split_in H].
  pose proof (downloadPromise_calls (requestEvents world)) as Hcalls.
  destruct (downloadPromise (requestEvents world)) as [t [[]|e|]];
    cbn in Hcalls |- *;
    [destruct (extraction world) as [m| |[] [m|]]; cbn|..];
    intros H; split_in H;
    try (exfalso; exact (Hcalls _ H));
    now injection H as <- <-.
Qed.

(** X3.  In [downloadAndUnzipLambda] the archive is extracted only after the
    request has emitted ['complete'], into the import location and with
    overwriting; by then the temporary folder is registered for disposal and
    the archive that is opened is the file the download was piped to. *)
Theorem extraction_follows_completed_download (target : string) (overwrite : bool) :
  let run := downloadAndUnzipLambda platform world functionNode importLocation in
  In (ExtractAllToAsync target overwrite) (trace run) ->
  completes (requestEvents world) = true /\
  target = importLocation /\
  overwrite = true /\
  exists tempFolder codeLocation : string,
    makeTemporaryToolkitFolder world = Ok tempFolder /\
    getFunction world = Ok codeLocation /\
    In (AddDisposableFolder tempFolder) (trace run) /\
    In (RequestGet codeLocation (path_join platform [tempFolder; "function.zip"]))
       (trace run) /\
    In (NewAdmZip (path_join platform [tempFolder; "function.zip"])) (trace run).
Proof.
  cbn zeta. unfold downloadAndUnzipLambda, extractPromise.
  destruct (makeTemporaryToolkitFolder world) as [tempFolder|];
    [|cbn; intros H; split_in H].
  destruct (getFunction world) as [codeLocation|];
    [|cbn; intros H; split_in H].
  pose proof (downloadPromise_outcome (requestEvents world)) as Ho.
  pose proof (downloadPromise_calls (requestEvents world)) as Hcalls.
  destruct (completes (requestEvents world));
    destruct (downloadPromise (requestEvents world)) as [t o];
    cbn in Ho, Hcalls; subst o; cbn.
  - destruct (extraction world) as [m| |[] [m|]]; cbn; intros H; split_in H;
      try (exfalso; exact (Hcalls _ H));
      injection H as <- <-;
      (repeat split; try reflexivity);
      exists tempFolder, codeLocation; (repeat split; try reflexivity);
      cbn; rewrite ?in_app_iff; cbn; tauto.
  - intros H; split_in H; exfalso; exact (Hcalls _ H).
Qed.



(** When [downloadAndUnzipLambda] returns, every step of it has succeeded
    and its calls are those of the successful run. *)
Lemma downloadAndUnzipLambda_returned :
  outcome (downloadAndUnzipLambda platform world functionNode importLocation)
    = Returned tt ->
  exists (tempFolder codeLocation : string) (timing : CallbackTiming),
    makeTemporaryToolkitFolder world = Ok tempFolder /\
    getFunction world = Ok codeLocation /\
    completes (requestEvents world) = true /\
    extraction world = CallbackInvoked timing None /\
    trace (downloadAndUnzipLambda platform world functionNode importLocation) =
      [MakeTemporaryToolkitFolder;
       AddDisposableFolder tempFolder;
       GetFunction (FunctionArn (configuration functionNode));
       ProgressReport 10;
       Log LDebug (Plain "Starting Lambda download...");
       RequestGet codeLocation (path_join platform [tempFolder; "function.zip"])]
      ++ trace (downloadPromise (requestEvents world))
      ++ [ProgressReport 70;
          NewAdmZip (path_join platform [tempFolder; "function.zip"]);
          ExtractAllToAsync importLocation true;
          ProgressReport 10].
Proof.
  unfold downloadAndUnzipLambda, extractPromise.
  destruct (makeTemporaryToolkitFolder world) as [tempFolder|]; [|discriminate].
  destruct (getFunction world) as [codeLocation|]; [|discriminate].
  pose proof (downloadPromise_outcome (requestEvents world)) as Ho.
  destruct (completes (requestEvents world));
    destruct (downloadPromise (requestEvents world)) as [t o];
    cbn in Ho; subst o; cbn; [|discriminate].
  destruct (extraction world) as [m| |timing [m|]]; cbn;
    try destruct timing; cbn; try discriminate; intros _;
    eexists _, _, _; repeat split.
Qed.

(** The calls of [downloadAndUnzipLambda]. *)
Lemma downloadAndUnzipLambda_calls (c : Call) :
  In c (trace (downloadAndUnzipLambda platform world functionNode importLocation)) ->
  match c with
  | MakeTemporaryToolkitFolder | AddDisposableFolder _ | GetFunction _
  | ProgressReport _ | Log _ _ | RequestGet _ _ | NewAdmZip _
  | ExtractAllToAsync _ _ | UncaughtException _ | ShowErrorMessage _ => True
  | _ => False
  end.
Proof.
  unfold downloadAndUnzipLambda, extractPromise.
  pose proof (downloadPromise_calls (requestEvents world)) as Hcalls.
  destruct (makeTemporaryToolkitFolder world) as [tempFolder|];
    [|cbn; intros H; split_in H; subst c; exact I].
  destruct (getFunction world) as [codeLocation|];
    [|cbn; intros H; split_in H; subst c; exact I].
  destruct (downloadPromise (requestEvents world)) as [t [[]|e|]];
    cbn in Hcalls |- *.
  - destruct (extraction world) as [m| |[] [m|]]; cbn; intros H; split_in H;
      try (subst c; exact I);
      specialize (Hcalls _ H); destruct c; tauto.
  - intros H; split_in H; try (subst c; exact I);
      specialize (Hcalls _ H); destruct c; tauto.
  - intros H; split_in H; try (subst c; exact I);
      specialize (Hcalls _ H); destruct c; tauto.
Qed.

(** The calls of [openLambdaFile]: a document is opened only when the file
    is there. *)
Lemma openLambdaFile_calls (lambdaLocation : string) (c : Call) :
  In c (trace (openLambdaFile world lambdaLocation)) ->
  match c with
  | FileExists _ | Log _ _ | ShowWarningMessage _ => True
  | OpenTextDocument _ => fileExists world lambdaLocation = Ok true
  | ShowTextDocument _ =>
      fileExists world lambdaLocation = Ok true /\ openTextDocument world = Ok tt
  | _ => False
  end.
Proof.
  unfold openLambdaFile.
  destruct (fileExists world lambdaLocation) as [[]|]; cbn;
    destruct (openTextDocument world) as [[]|]; cbn;
    destruct (showTextDocument world) as [[]|]; cbn;
    intros H; split_in H; subst c; cbn; tauto.
Qed.

Lemma openLambdaFile_returned (lambdaLocation : string) :
  outcome (openLambdaFile world lambdaLocation) = Returned tt ->
  fileExists world lambdaLocation = Ok true /\
  openTextDocument world = Ok tt /\
  showTextDocument world = Ok tt.
Proof.
  unfold openLambdaFile.
  destruct (fileExists world lambdaLocation) as [[]|]; cbn;
    destruct (openTextDocument world) as [[]|]; cbn;
    destruct (showTextDocument world) as [[]|]; cbn;
    (discriminate || tauto).
Qed.

(** The import task once the file name is resolved: the calls of the
    download, then those of the post-import steps that are reached. *)
Lemma importTask_trace (workspaceFolder : WorkspaceFolder) (fileName : string) :
  getLambdaFileNameFromHandler (getFamily platform) (configuration functionNode)
    = Value fileName ->
  let lambdaLocation := path_join platform [importLocation; fileName] in
  trace (importTask platform world functionNode importLocation workspaceFolder) =
    trace (downloadAndUnzipLambda platform world functionNode importLocation)
    ++ match outcome (downloadAndUnzipLambda platform world functionNode
                                             importLocation) with
       | Returned _ =>
           trace (openLambdaFile world lambdaLocation)
           ++ match outcome (openLambdaFile world lambdaLocation) with
              | Returned _ =>
                  trace (addLaunchConfigEntry platform world lambdaLocation
                                              functionNode workspaceFolder)
              | _ => []
              end
       | _ => []
       end.
Proof.
  intros Hname lambdaLocation. unfold importTask. rewrite Hname.
  cbn [sync]. rewrite bind_ret_l. fold lambdaLocation.
  rewrite trace_tryCatch.
  rewrite (trace_bind (downloadAndUnzipLambda _ _ _ _)).
  rewrite (outcome_bind (downloadAndUnzipLambda _ _ _ _)).
  rewrite <- app_assoc. f_equal.
  destruct (outcome (downloadAndUnzipLambda _ _ _ _)) as [[]|e|].
  - rewrite (trace_bind (openLambdaFile _ _)), (outcome_bind (openLambdaFile _ _)).
    rewrite <- app_assoc. f_equal.
    destruct (outcome (openLambdaFile _ _)) as [[]|e|].
    + rewrite (trace_bind (addLaunchConfigEntry _ _ _ _ _)),
        (outcome_bind (addLaunchConfigEntry _ _ _ _ _)).
      rewrite <- app_assoc.
      destruct (outcome (addLaunchConfigEntry _ _ _ _ _)) as [[]|e|]; cbn;
        try destruct (instanceOfImportError e); cbn; now rewrite ?app_nil_r.
    + destruct (instanceOfImportError e); reflexivity.
    + reflexivity.
  - destruct (instanceOfImportError e); reflexivity.
  - reflexivity.
Qed.

(** The import task returns [Succeeded] or [Failed], never [Cancelled]. *)
Lemma importTask_result (workspaceFolder : WorkspaceFolder) (result : Result) :
  outcome (importTask platform world functionNode importLocation workspaceFolder)
    = Returned result ->
  result = Succeeded \/ result = Failed.
Proof.
  unfold importTask.
  destruct (getLambdaFileNameFromHandler _ _) as [fileName|e]; [|discriminate].
  cbn [sync]. rewrite bind_ret_l, outcome_tryCatch.
  rewrite (outcome_bind (downloadAndUnzipLambda _ _ _ _)).
  destruct (outcome (downloadAndUnzipLambda _ _ _ _)) as [[]|e|].
  - rewrite (outcome_bind (openLambdaFile _ _)).
    destruct (outcome (openLambdaFile _ _)) as [[]|e|].
    + rewrite (outcome_bind (addLaunchConfigEntry _ _ _ _ _)).
      destruct (outcome (addLaunchConfigEntry _ _ _ _ _)) as [[]|e|]; cbn;
        try destruct (instanceOfImportError e); cbn;
        (discriminate || (intros [= <-]; tauto)).
    + destruct (instanceOfImportError e); intros [= <-]; tauto.
    + discriminate.
  - destruct (instanceOfImportError e); intros [= <-]; tauto.
  - discriminate.
Qed.

Lemma addLaunchConfigEntry_calls (lambdaLocation : string)
    (workspaceFolder : WorkspaceFolder) (c : Call) :
  In c (trace (addLaunchConfigEntry platform world lambdaLocation functionNode
                                    workspaceFolder)) ->
  handlerPathReferenced world = false /\
  c = AddDebugConfiguration (Handler (configuration functionNode))
                            (path_dirname platform lambdaLocation)
                            (Runtime (configuration functionNode)).
Proof.
  unfold addLaunchConfigEntry.
  destruct (handlerPathReferenced world); cbn;
    [|destruct (addDebugConfiguration world)]; cbn;
    intros H; split_in H; now subst c.
Qed.

(** The calls of the import task. *)
Lemma importTask_calls (workspaceFolder : WorkspaceFolder) (c : Call) :
  In c (trace (importTask platform world functionNode importLocation workspaceFolder)) ->
  match c with
  | MakeTemporaryToolkitFolder | AddDisposableFolder _ | GetFunction _
  | ProgressReport _ | Log _ _ | RequestGet _ _ | NewAdmZip _
  | ExtractAllToAsync _ _ | UncaughtException _ | ShowErrorMessage _
  | FileExists _ | ShowWarningMessage _ | OpenTextDocument _ | ShowTextDocument _
  | AddDebugConfiguration _ _ _ => True
  | _ => False
  end.
Proof.
  destruct (getLambdaFileNameFromHandler (getFamily platform)
              (configuration functionNode)) as [fileName|e] eqn:Hname.
  - rewrite (importTask_trace workspaceFolder fileName Hname).
    intros H. apply in_app_or in H as [H|H].
    + apply downloadAndUnzipLambda_calls in H. destruct c; tauto.
    + destruct (outcome (downloadAndUnzipLambda _ _ _ _)); try now destruct H.
      apply in_app_or in H as [H|H].
      * apply openLambdaFile_calls in H. destruct c; tauto.
      * destruct (outcome (openLambdaFile _ _)); try now destruct H.
        apply addLaunchConfigEntry_calls in H as [_ ->]. exact I.
  - unfold importTask. rewrite Hname. intros [].
Qed.

(** X5.  A debug configuration is added only at the end of a successful
    import: the download and the extraction have returned, the handler file
    is there and has been opened and shown, and its handler is not yet
    referenced by a launch configuration. *)
Theorem debug_configuration_only_after_open (workspaceFolder : WorkspaceFolder)
    (handler codeRoot runtime : string) :
  In (AddDebugConfiguration handler codeRoot runtime)
     (trace (importTask platform world functionNode importLocation workspaceFolder)) ->
  exists fileName : string,
    getLambdaFileNameFromHandler (getFamily platform) (configuration functionNode)
      = Value fileName /\
    outcome (downloadAndUnzipLambda platform world functionNode importLocation)
      = Returned tt /\
    fileExists world (path_join platform [importLocation; fileName]) = Ok true /\
    openTextDocument world = Ok tt /\
    showTextDocument world = Ok tt /\
    handlerPathReferenced world = false /\
    handler = Handler (configuration functionNode) /\
    codeRoot = path_dirname platform (path_join platform [importLocation; fileName]) /\
    runtime = Runtime (configuration functionNode).
Proof.
  destruct (getLambdaFileNameFromHandler (getFamily platform)
              (configuration functionNode)) as [fileName|e] eqn:Hname.
  - rewrite (importTask_trace workspaceFolder fileName Hname).
    intros H. exists fileName. split; [reflexivity|].
    apply in_app_or in H as [H|H];
      [apply downloadAndUnzipLambda_calls in H; destruct H|].
    destruct (outcome (downloadAndUnzipLambda _ _ _ _)) as [[]|e|];
      try now destruct H.
    split; [reflexivity|].
    apply in_app_or in H as [H|H];
      [apply openLambdaFile_calls in H; destruct H|].
    destruct (outcome (openLambdaFile _ _)) as [[]|e|] eqn:Hopen;
      try now destruct H.
    apply openLambdaFile_returned in Hopen as (Hfile & Hdoc & Hshow).
    apply addLaunchConfigEntry_calls in H as [Href [= -> -> ->]].
    now repeat split.
  - unfold importTask. rewrite Hname. intros [].
Qed.

(** The import task extracts into the import location, with overwriting. *)
Lemma importTask_extraction (workspaceFolder : WorkspaceFolder) (target : string)
    (overwrite : bool) :
  In (ExtractAllToAsync target overwrite)
     (trace (importTask platform world functionNode importLocation workspaceFolder)) ->
  target = importLocation /\ overwrite = true.
Proof.
  destruct (getLambdaFileNameFromHandler (getFamily platform)
              (configuration functionNode)) as [fileName|e] eqn:Hname.
  - rewrite (importTask_trace workspaceFolder fileName Hname).
    intros H. apply in_app_or in H as [H|H].
    + apply downloadAndUnzipLambda_extraction in H. tauto.
    + destruct (outcome (downloadAndUnzipLambda _ _ _ _)); try now destruct H.
      apply in_app_or in H as [H|H];
        [apply openLambdaFile_calls in H; destruct H|].
      destruct (outcome (openLambdaFile _ _)); try now destruct H.
      apply addLaunchConfigEntry_calls in H as [_ H]. discriminate.
  - unfold importTask. rewrite Hname. intros [].
Qed.

End ImportMore.

(** *** The whole import *)

Lemma existsb_false_filter {A : Type} (p : A -> bool) (xs : list A) :
  existsb p xs = false -> filter p xs = [].
Proof.
  induction xs as [|x rest IH]; [reflexivity|]. cbn.
  destruct (p x); [discriminate|exact IH].
Qed.

Lemma forall_false_existsb {A : Type} (p : A -> bool) (xs : list A) :
  (forall x, In x xs -> p x = false) -> existsb p xs = false.
Proof.
  induction xs as [|x rest IH]; [reflexivity|]. intros H. cbn.
  rewrite (H x (or_introl eq_refl)). apply IH. intros y Hy. apply H. now right.
Qed.

Ltac prefix_of l t :=
  lazymatch l with
  | t => constr:(@nil Call)
  | ?a :: ?rest => let r := prefix_of rest t in constr:(a :: r)
  end.

Section ImportRun.

Variable platform : Platform.
Variable world : World.
Variable functionNode : LambdaFunctionNode.

(** [runImportLambda] either stops before the progress notification,
    cancelled or with the exception of a prompt, or runs the import task at
    the location made of the selected folder and the function name. *)
Lemma runImportLambda_shape :
  let run := runImportLambda platform world functionNode in
  (exists (prefix : list Call) (o : Outcome Result),
     run = (prefix, o) /\
     existsb isDownloadCall prefix = false /\
     existsb isTelemetry prefix = false /\
     ((o = Returned Cancelled /\ existsb isImportEffect prefix = false) \/
      exists m : string, o = Thrown (Err m))) \/
  (exists (selectedUri : Uri) (prefix : list Call),
     locationPrompt world = Ok (Some selectedUri) /\
     let importLocation :=
       path_join platform [fsPath selectedUri;
                           FunctionName (configuration functionNode);
                           path_sep platform] in
     let task := importTask platform world functionNode importLocation
                            (getWorkspaceFolder world importLocation) in
     trace run = prefix ++ trace task /\
     outcome run = outcome task /\
     existsb isDownloadCall prefix = false /\
     existsb isTelemetry prefix = false /\
     progressIncrements prefix = []).
Proof.
  cbn zeta. unfold runImportLambda.
  destruct (Nat.eqb _ 0);
    [left; eexists _, _; split; [reflexivity|]; cbn; tauto|].
  destruct (locationPrompt world) as [[selectedUri|]|];
    try (left; eexists _, _; split; [reflexivity|]; cbn; eauto 6; fail).
  cbn [call bind].
  match goal with
  | |- context [importTask ?p ?w ?f ?l ?wf] =>
      remember (importTask p w f l wf) as task eqn:Htask
  end.
  destruct task as [t o].
  destruct (pathExists world _) as [[]|]; cbn;
    try (left; eexists _, _; split; [reflexivity|]; cbn; eauto 6; fail).
  - destruct (overwriteConfirmation world) as [[]|]; cbn;
      try (left; eexists _, _; split; [reflexivity|]; cbn; eauto 6; fail).
    destruct (Nat.eqb _ 0); cbn.
    + destruct (addFolderToWorkspace world) as [[]|]; cbn;
        try (left; eexists _, _; split; [reflexivity|]; cbn; eauto 6; fail).
      right. exists selectedUri.
      match goal with
      | |- exists prefix, _ /\ ?l = _ /\ _ =>
          let pre := prefix_of l t in exists pre
      end.
      split; [reflexivity|]. cbn zeta. rewrite <- Htask. cbn. now repeat split.
    + right. exists selectedUri.
      match goal with
      | |- exists prefix, _ /\ ?l = _ /\ _ =>
          let pre := prefix_of l t in exists pre
      end.
      split; [reflexivity|]. cbn zeta. rewrite <- Htask. cbn. now repeat split.
  - destruct (Nat.eqb _ 0); cbn.
    + destruct (addFolderToWorkspace world) as [[]|]; cbn;
        try (left; eexists _, _; split; [reflexivity|]; cbn; eauto 6; fail).
      right. exists selectedUri.
      match goal with
      | |- exists prefix, _ /\ ?l = _ /\ _ =>
          let pre := prefix_of l t in exists pre
      end.
      split; [reflexivity|]. cbn zeta. rewrite <- Htask. cbn. now repeat split.
    + right. exists selectedUri.
      match goal with
      | |- exists prefix, _ /\ ?l = _ /\ _ =>
          let pre := prefix_of l t in exists pre
      end.
      split; [reflexivity|]. cbn zeta. rewrite <- Htask. cbn. now repeat split.
Qed.

(** X6.  An import that returns [Cancelled] has touched nothing: no folder
    added to the workspace, no progress notification, no temporary folder, no
    request to the service, no download, no extraction, no document opened. *)
Theorem import_cancelled_touches_nothing :
  let run := runImportLambda platform world functionNode in
  outcome run = Returned Cancelled ->
  existsb isImportEffect (trace run) = false.
Proof.
  cbn zeta. intros Hcancel.
  destruct runImportLambda_shape
    as [(prefix & o & Hrun & _ & _ & Hstop)|(uri & prefix & _ & _ & Ho & _)].
  - rewrite Hrun in Hcancel |- *. cbn in Hcancel |- *.
    destruct Hstop as [[_ Hquiet]|[m ->]]; [exact Hquiet|discriminate].
  - cbn zeta in Ho. rewrite Ho in Hcancel.
    apply importTask_result in Hcancel as [Hc|Hc]; discriminate.
Qed.

(** X7.  An import that returns [Succeeded] has extracted the archive: the
    download completed, the archive library reported no error, the archive
    was extracted with overwriting into the folder named after the function
    inside the selected folder, and the three progress reports were made. *)
Theorem import_succeeded_has_extracted :
  let run := runImportLambda platform world functionNode in
  outcome run = Returned Succeeded ->
  exists (selectedUri : Uri) (timing : CallbackTiming),
    locationPrompt world = Ok (Some selectedUri) /\
    completes (requestEvents world) = true /\
    extraction world = CallbackInvoked timing None /\
    In (ExtractAllToAsync
          (path_join platform [fsPath selectedUri;
                               FunctionName (configuration functionNode);
                               path_sep platform])
          true)
       (trace run) /\
    progressIncrements (trace run) = [10; 70; 10]%Z.
Proof.
  cbn zeta. intros Hok.
  destruct runImportLambda_shape
    as [(prefix & o & Hrun & _ & _ & Hstop)
       |(uri & prefix & Hprompt & Htrace & Ho & _ & _ & Hprogress)].
  { rewrite Hrun in Hok. cbn in Hok.
    destruct Hstop as [[-> _]|[m ->]]; discriminate. }
  cbn zeta in Htrace, Ho.
  set (importLocation := path_join platform _) in *.
  set (workspaceFolder := getWorkspaceFolder world importLocation) in *.
  rewrite Ho in Hok.
  destruct (getLambdaFileNameFromHandler (getFamily platform)
              (configuration functionNode)) as [fileName|e] eqn:Hname;
    [|unfold importTask in Hok; rewrite Hname in Hok; discriminate].
  pose proof (importTask_not_succeeded_without_download platform world
                functionNode importLocation workspaceFolder) as Hdl.
  destruct (outcome (downloadAndUnzipLambda platform world functionNode
                                            importLocation))
    as [[]|e|] eqn:Hdownload;
    try (exfalso; apply Hdl; [discriminate|exact Hok]).
  destruct (downloadAndUnzipLambda_returned platform world functionNode
              importLocation Hdownload)
    as (tempFolder & codeLocation & timing & _ & _ & Hc & Hex & Hdtrace).
  exists uri, timing. repeat split; try assumption.
  - rewrite Htrace, (importTask_trace platform world functionNode importLocation
                       workspaceFolder fileName Hname), Hdtrace.
    rewrite !in_app_iff. cbn. tauto.
  - rewrite Htrace, (importTask_trace platform world functionNode importLocation
                       workspaceFolder fileName Hname), Hdownload, Hdtrace.
    rewrite !progressIncrements_app, Hprogress, downloadPromise_no_progress,
      openLambdaFile_no_progress.
    destruct (outcome (openLambdaFile _ _));
      now rewrite ?addLaunchConfigEntry_no_progress.
Qed.

(** X8.  On a runtime that is neither Python nor NodeJS the import downloads
    nothing and returns neither [Succeeded] nor [Failed]: it is cancelled
    before the progress notification, or it throws. *)
Theorem import_unsupported_runtime_downloads_nothing :
  getFamily platform (Runtime (configuration functionNode)) = Other ->
  let run := runImportLambda platform world functionNode in
  existsb isDownloadCall (trace run) = false /\
  (outcome run = Returned Cancelled \/
   exists message : string, outcome run = Thrown (Err message)).
Proof.
  intros Hfamily. cbn zeta.
  destruct runImportLambda_shape
    as [(prefix & o & Hrun & Hquiet & _ & Hstop)
       |(uri & prefix & _ & Htrace & Ho & Hquiet & _)].
  - rewrite Hrun. cbn. split; [exact Hquiet|].
    destruct Hstop as [[-> _]|[m ->]]; eauto.
  - cbn zeta in Htrace, Ho. rewrite Htrace, Ho.
    unfold importTask, getLambdaFileNameFromHandler. rewrite Hfamily. cbn.
    rewrite app_nil_r. split; [exact Hquiet|]. eauto.
Qed.

(** X9.  [importLambdaCommand] records telemetry exactly when
    [runImportLambda] returns, once and with the result returned; an import
    that throws or never settles records nothing. *)
Theorem import_telemetry_only_on_return :
  filter isTelemetry (trace (importLambdaCommand platform world functionNode)) =
  match outcome (runImportLambda platform world functionNode) with
  | Returned result =>
      [RecordLambdaImport result (Runtime (configuration functionNode))]
  | _ => []
  end.
Proof.
  assert (Hquiet :
    filter isTelemetry (trace (runImportLambda platform world functionNode)) = []).
  { apply existsb_false_filter.
    destruct runImportLambda_shape
      as [(prefix & o & Hrun & _ & Hnone & _)
         |(uri & prefix & _ & Htrace & _ & _ & Hnone & _)].
    - now rewrite Hrun.
    - cbn zeta in Htrace. rewrite Htrace, existsb_app, Hnone.
      apply forall_false_existsb. intros c Hc.
      apply importTask_calls in Hc. destruct c; tauto. }
  unfold importLambdaCommand. rewrite trace_bind, filter_app, Hquiet.
  destruct (outcome (runImportLambda platform world functionNode)); reflexivity.
Qed.

(** X20.  An import extracts into a location that exists only after the
    user has confirmed that the directory is overwritten: when the archive
    is extracted, the location is the folder named after the function inside
    the selected folder, and either it did not exist or the confirmation was
    answered yes. *)
Theorem import_overwrites_only_after_confirmation (target : string)
    (overwrite : bool) :
  In (ExtractAllToAsync target overwrite)
     (trace (runImportLambda platform world functionNode)) ->
  exists selectedUri : Uri,
    locationPrompt world = Ok (Some selectedUri) /\
    let importLocation :=
      path_join platform [fsPath selectedUri;
                          FunctionName (configuration functionNode);
                          path_sep platform] in
    target = importLocation /\
    (pathExists world importLocation = Ok false \/
     (pathExists world importLocation = Ok true /\
      overwriteConfirmation world = Ok true)).
Proof.
  unfold runImportLambda.
  destruct (Nat.eqb _ 0); [cbn; intros H; split_in H|].
  destruct (locationPrompt world) as [[selectedUri|]|];
    try (cbn; intros H; split_in H; fail).
  cbn [call bind].
  match goal with
  | |- context [importTask ?p ?w ?f ?l ?wf] =>
      pose proof (fun t o => importTask_extraction p w f l wf t o) as Htask;
      destruct (importTask p w f l wf) as [t o]
  end.
  cbn [trace fst] in Htask.
  destruct (pathExists world _) as [[]|] eqn:Hexists; cbn;
    try (intros H; split_in H; fail).
  - destruct (overwriteConfirmation world) as [[]|]; cbn;
      try (intros H; split_in H; fail).
    destruct (Nat.eqb _ 0); cbn;
      [destruct (addFolderToWorkspace world) as [[]|]; cbn|];
      intros H; split_in H;
      apply Htask in H as [-> _]; exists selectedUri; cbn; tauto.
  - destruct (Nat.eqb _ 0); cbn;
      [destruct (addFolderToWorkspace world) as [[]|]; cbn|];
      intros H; split_in H;
      apply Htask in H as [-> _]; exists selectedUri; cbn; tauto.
Qed.

End ImportRun.

(** ** More on the upload command *)

Section UploadMore.

Variable platform : Platform.
Variable world : World.
Variable functionNode : LambdaFunctionNode.

Lemma uploadZipBuffer_run (zip : Buffer) :
  uploadZipBuffer world functionNode zip =
  match updateFunctionCode world with
  | Ok _ =>
      ([UpdateFunctionCode (FunctionName (configuration functionNode)) zip],
       Returned Succeeded)
  | Raises m =>
      ([UpdateFunctionCode (FunctionName (configuration functionNode)) zip;
        ShowErrorMessage (Plain m);
        Log LError (Plain ("uploadZipBuffer failed: " +++ m))],
       Returned Failed)
  end.
Proof.
  unfold uploadZipBuffer. destruct (updateFunctionCode world) as [[]|]; reflexivity.
Qed.

Lemma zipAndUploadDirectory_run (path : string) :
  zipAndUploadDirectory world functionNode path =
  match zipLocalFolder world path with
  | Ok zip =>
      (AddLocalFolder path :: trace (uploadZipBuffer world functionNode zip),
       outcome (uploadZipBuffer world functionNode zip))
  | Raises m =>
      ([AddLocalFolder path;
        ShowErrorMessage (Plain m);
        Log LError (Plain ("zipAndUploadDirectory failed: " +++ m))],
       Returned Failed)
  end.
Proof.
  unfold zipAndUploadDirectory.
  destruct (zipLocalFolder world path) as [zip|]; [|reflexivity].
  cbn -[uploadZipBuffer]. rewrite uploadZipBuffer_run.
  destruct (updateFunctionCode world) as [[]|]; reflexivity.
Qed.

Lemma zipAndUploadDirectory_returns (path : string) :
  exists result : Result,
    outcome (zipAndUploadDirectory world functionNode path) = Returned result.
Proof.
  rewrite zipAndUploadDirectory_run.
  destruct (zipLocalFolder world path); [rewrite uploadZipBuffer_run|];
    try destruct (updateFunctionCode world); eexists; reflexivity.
Qed.

Lemma samBuildAndUpload_run (parentDir : Uri) :
  samBuildAndUpload platform world functionNode parentDir =
  match makeTemporaryToolkitFolder world with
  | Raises m =>
      ([MakeTemporaryToolkitFolder;
        ShowErrorMessage (Plain m);
        Log LError (Plain ("runUploadLambdaWithSamBuild failed: " +++ m))],
       Returned Failed)
  | Ok tempDir =>
      let templatePath := path_join platform [tempDir; "template.yaml"] in
      let buildDir := path_join platform [tempDir; "output"] in
      let started :=
        [MakeTemporaryToolkitFolder;
         AddDisposableFolder tempDir;
         GenerateTemplate (Handler (configuration functionNode)) "tempResource"
                          (Runtime (configuration functionNode))
                          (fsPath parentDir) templatePath] in
      match generateTemplate world with
      | Raises m =>
          (started ++
           [ShowErrorMessage (Plain m);
            Log LError (Plain ("runUploadLambdaWithSamBuild failed: " +++ m))],
           Returned Failed)
      | Ok _ =>
          let built :=
            started ++ [SamCliBuild buildDir templatePath (fsPath parentDir)
                                    true false] in
          match samCliBuild world with
          | Raises m =>
              (built ++
               [ShowErrorMessage (Plain m);
                Log LError (Plain ("runUploadLambdaWithSamBuild failed: " +++ m))],
               Returned Failed)
          | Ok _ =>
              let upload :=
                zipAndUploadDirectory world functionNode
                  (path_join platform [buildDir; "tempResource"]) in
              (built ++ trace upload, outcome upload)
          end
      end
  end.
Proof.
  unfold samBuildAndUpload.
  destruct (makeTemporaryToolkitFolder world) as [tempDir|]; [|reflexivity].
  destruct (generateTemplate world) as [[]|]; [|reflexivity].
  destruct (samCliBuild world) as [[]|]; [|reflexivity].
  cbn -[zipAndUploadDirectory].
  destruct (zipAndUploadDirectory_returns
              (path_join platform [path_join platform [tempDir; "output"];
                                   "tempResource"])) as [result Hresult].
  destruct (zipAndUploadDirectory world functionNode _) as [t o].
  cbn in Hresult. subst o. reflexivity.
Qed.

(** The calls of the handler check. *)
Lemma handlerCheck_calls (parentDir : Uri) (c : Call) :
  In c (trace (handlerCheck platform world functionNode parentDir)) ->
  match c with
  | FileExists _ | ShowConfirmationMessage _ | Log _ _ => True
  | _ => False
  end.
Proof.
  unfold handlerCheck.
  destruct (getLambdaFileNameFromHandler _ _) as [fileName|e]; cbn;
    [|intros [<-|[]]; exact I].
  destruct (fileExists world _) as [[]|]; cbn;
    try (intros H; split_in H; subst c; exact I).
  destruct (handlerConfirmation world) as [[]|]; cbn;
    intros H; split_in H; subst c; exact I.
Qed.

(** *** Calls to [updateFunctionCode] *)

Ltac close_deploys :=
  unfold deploysAtMostOnce; cbn;
  split; [lia|split; intros H; try discriminate H; try reflexivity];
  (split; [reflexivity|eexists; reflexivity]).

Lemma deploys_after_prefix (prefix : list Call) (run : Async Result) :
  existsb isUpdateFunctionCode prefix = false ->
  deploysAtMostOnce world functionNode run ->
  deploysAtMostOnce world functionNode (prefix ++ trace run, outcome run).
Proof.
  intros Hquiet. unfold deploysAtMostOnce. cbn.
  now rewrite filter_app, (existsb_false_filter _ _ Hquiet).
Qed.

Lemma uploadZipBuffer_deploys (zip : Buffer) :
  deploysAtMostOnce world functionNode (uploadZipBuffer world functionNode zip).
Proof.
  unfold deploysAtMostOnce. rewrite uploadZipBuffer_run.
  destruct (updateFunctionCode world) as [[]|]; close_deploys.
Qed.

Lemma zipAndUploadDirectory_deploys (path : string) :
  deploysAtMostOnce world functionNode (zipAndUploadDirectory world functionNode path).
Proof.
  rewrite zipAndUploadDirectory_run.
  destruct (zipLocalFolder world path) as [zip|]; [|close_deploys].
  apply (deploys_after_prefix [AddLocalFolder path]); [reflexivity|].
  apply uploadZipBuffer_deploys.
Qed.

Lemma runUploadLambdaZipFile_deploys :
  deploysAtMostOnce world functionNode (runUploadLambdaZipFile world functionNode).
Proof.
  unfold runUploadLambdaZipFile.
  destruct (openDialog world) as [[[|file [|]]|]|]; try close_deploys.
  cbn -[uploadZipBuffer].
  destruct (readFileSync world (fsPath file)) as [zip|]; [|close_deploys].
  cbn -[uploadZipBuffer].
  pose proof (uploadZipBuffer_deploys zip) as Hzip.
  destruct (uploadZipBuffer world functionNode zip) as [t o].
  apply (deploys_after_prefix
           [ShowOpenDialog false true; ReadFileSync (fsPath file)] (t, o));
    [reflexivity|exact Hzip].
Qed.

Lemma runUploadLambdaDirectory_deploys :
  deploysAtMostOnce world functionNode (runUploadLambdaDirectory world functionNode).
Proof.
  unfold runUploadLambdaDirectory.
  destruct (openDialog world) as [[[|dir [|]]|]|]; try close_deploys.
  cbn -[zipAndUploadDirectory].
  pose proof (zipAndUploadDirectory_deploys (fsPath dir)) as Hzip.
  destruct (zipAndUploadDirectory world functionNode (fsPath dir)) as [t o].
  apply (deploys_after_prefix [ShowOpenDialog true false] (t, o));
    [reflexivity|exact Hzip].
Qed.

Lemma samBuildAndUpload_deploys (parentDir : Uri) :
  deploysAtMostOnce world functionNode
    (samBuildAndUpload platform world functionNode parentDir).
Proof.
  rewrite samBuildAndUpload_run.
  destruct (makeTemporaryToolkitFolder world) as [tempDir|]; [|close_deploys].
  destruct (generateTemplate world) as [[]|]; [|close_deploys].
  destruct (samCliBuild world) as [[]|]; [|close_deploys].
  cbn zeta. apply deploys_after_prefix; [reflexivity|].
  apply zipAndUploadDirectory_deploys.
Qed.

Lemma runUploadLambdaWithSamBuild_deploys :
  deploysAtMostOnce world functionNode
    (runUploadLambdaWithSamBuild platform world functionNode).
Proof.
  destruct (openDialog world) as [[[|parentDir [|]]|]|] eqn:Hdialog;
    try (unfold runUploadLambdaWithSamBuild; rewrite Hdialog; close_deploys).
  destruct (handlerCheck_returns platform world functionNode parentDir)
    as (early & Hearly & Hcases).
  destruct (handlerCheck_quiet platform world functionNode parentDir)
    as [_ Hnodeploy].
  destruct (runUploadLambdaWithSamBuild_steps platform world functionNode
              parentDir early Hdialog Hearly) as [Ht Ho].
  pose proof (samBuildAndUpload_deploys parentDir) as Hbuild.
  destruct (runUploadLambdaWithSamBuild platform world functionNode) as [t o].
  cbn in Ht, Ho. subst t o.
  destruct Hcases as [->| ->].
  - apply (deploys_after_prefix
             (ShowOpenDialog true false
                :: trace (handlerCheck platform world functionNode parentDir)));
      [exact Hnodeploy|exact Hbuild].
  - unfold deploysAtMostOnce. cbn.
    rewrite filter_app, (existsb_false_filter _ _ Hnodeploy). cbn.
    split; [lia|split; [discriminate|reflexivity]].
Qed.

(** X10.  Whatever the type of upload, [updateFunctionCode] is called at
    most once; an upload that returns [Succeeded] has called it once, for
    the function of the node, and the call has succeeded; an upload that
    returns [Cancelled] has not called it. *)
Theorem upload_deploys_at_most_once :
  let run := selectUploadTypeAndConfirm platform world functionNode in
  let deploys := filter isUpdateFunctionCode (trace run) in
  length deploys <= 1 /\
  (outcome run = Returned Succeeded ->
   updateFunctionCode world = Ok tt /\
   exists zip : Buffer,
     deploys = [UpdateFunctionCode (FunctionName (configuration functionNode)) zip]) /\
  (outcome run = Returned Cancelled -> deploys = []).
Proof.
  change (deploysAtMostOnce world functionNode
            (selectUploadTypeAndConfirm platform world functionNode)).
  unfold selectUploadTypeAndConfirm.
  destruct (pickerResponse world) as [[item|]|]; try close_deploys.
  cbn -[runUploadLambdaZipFile runUploadLambdaDirectory runUploadLambdaWithSamBuild].
  destruct (uploadConfirmation world) as [[]|]; try close_deploys.
  cbn -[runUploadLambdaZipFile runUploadLambdaDirectory runUploadLambdaWithSamBuild].
  pose proof runUploadLambdaZipFile_deploys as HA.
  pose proof runUploadLambdaDirectory_deploys as HB.
  pose proof runUploadLambdaWithSamBuild_deploys as HC.
  match goal with
  | |- context [ShowConfirmationMessage ?prompt] =>
      destruct item;
      [ destruct (runUploadLambdaZipFile world functionNode) as [t o];
        apply (deploys_after_prefix [PromptUser; ShowConfirmationMessage prompt]
                 (t, o)); [reflexivity|exact HA]
      | destruct (runUploadLambdaDirectory world functionNode) as [t o];
        apply (deploys_after_prefix [PromptUser; ShowConfirmationMessage prompt]
                 (t, o)); [reflexivity|exact HB]
      | destruct (runUploadLambdaWithSamBuild platform world functionNode) as [t o];
        apply (deploys_after_prefix [PromptUser; ShowConfirmationMessage prompt]
                 (t, o)); [reflexivity|exact HC] ]
  end.
Qed.

(** X11.  Nothing of an upload happens before the type of upload is chosen
    and the publication is confirmed: a run that opens a dialog, reads a
    file, builds, packs or calls [updateFunctionCode] has got a choice from
    the quick pick and the answer yes from the confirmation. *)
Theorem upload_needs_confirmation (c : Call) :
  In c (trace (selectUploadTypeAndConfirm platform world functionNode)) ->
  isUploadAction c = true ->
  uploadConfirmation world = Ok true /\
  exists item : UploadItem, pickerResponse world = Ok (Some item).
Proof.
  unfold selectUploadTypeAndConfirm.
  destruct (pickerResponse world) as [[item|]|]; cbn;
    try (intros H; split_in H; subst c; discriminate).
  destruct (uploadConfirmation world) as [[]|];
    cbn -[runUploadLambdaZipFile runUploadLambdaDirectory runUploadLambdaWithSamBuild];
    try (intros H; split_in H; subst c; discriminate).
  intros _ _. eauto.
Qed.

(** *** What is deployed *)

(** X12.  Uploading a ZIP archive deploys the bytes read from the selected
    file, for the function of the node, and packs nothing. *)
Theorem zip_file_upload_is_passthrough (name : string) (zip : Buffer) :
  let run := runUploadLambdaZipFile world functionNode in
  In (UpdateFunctionCode name zip) (trace run) ->
  name = FunctionName (configuration functionNode) /\
  packedFolders (trace run) = [] /\
  exists file : Uri,
    openDialog world = Ok (Some [file]) /\
    readFileSync world (fsPath file) = Ok zip.
Proof.
  cbn zeta. unfold runUploadLambdaZipFile.
  destruct (openDialog world) as [[[|file [|]]|]|]; cbn;
    try (intros H; split_in H; fail).
  destruct (readFileSync world (fsPath file)) as [bytes|] eqn:Hread;
    cbn -[uploadZipBuffer]; [|intros H; split_in H].
  rewrite uploadZipBuffer_run.
  destruct (updateFunctionCode world) as [[]|]; cbn;
    intros H; split_in H; injection H as <- <-; eauto.
Qed.

(** X13.  Uploading a directory packs the selected directory, and only it,
    and deploys the archive the packing produced, for the function of the
    node. *)
Theorem directory_upload_deploys_selected_folder (name : string) (zip : Buffer) :
  let run := runUploadLambdaDirectory world functionNode in
  In (UpdateFunctionCode name zip) (trace run) ->
  name = FunctionName (configuration functionNode) /\
  exists dir : Uri,
    openDialog world = Ok (Some [dir]) /\
    packedFolders (trace run) = [fsPath dir] /\
    zipLocalFolder world (fsPath dir) = Ok zip.
Proof.
  cbn zeta. unfold runUploadLambdaDirectory.
  destruct (openDialog world) as [[[|dir [|]]|]|]; cbn -[zipAndUploadDirectory];
    try (intros H; split_in H; fail).
  rewrite zipAndUploadDirectory_run.
  destruct (zipLocalFolder world (fsPath dir)) as [bytes|] eqn:Hzip;
    [rewrite uploadZipBuffer_run|]; cbn; [|intros H; split_in H].
  destruct (updateFunctionCode world) as [[]|]; cbn;
    intros H; split_in H; injection H as <- <-; eauto.
Qed.

(** X14.  Strategy C deploys only what it has built and packed: a call to
    [updateFunctionCode] comes after a successful template generation and a
    successful build, and its archive is the one produced by packing the
    folder of the resource inside the build directory. *)
Theorem build_upload_deploys_packed_output (name : string) (zip : Buffer) :
  let run := runUploadLambdaWithSamBuild platform world functionNode in
  In (UpdateFunctionCode name zip) (trace run) ->
  name = FunctionName (configuration functionNode) /\
  generateTemplate world = Ok tt /\
  samCliBuild world = Ok tt /\
  exists tempDir : string,
    makeTemporaryToolkitFolder world = Ok tempDir /\
    zipLocalFolder world
      (path_join platform [path_join platform [tempDir; "output"]; "tempResource"])
      = Ok zip.
Proof.
  cbn zeta.
  destruct (openDialog world) as [[[|parentDir [|]]|]|] eqn:Hdialog;
    try (unfold runUploadLambdaWithSamBuild; rewrite Hdialog; cbn;
         intros H; split_in H; fail).
  destruct (handlerCheck_returns platform world functionNode parentDir)
    as (early & Hearly & Hcases).
  destruct (runUploadLambdaWithSamBuild_steps platform world functionNode
              parentDir early Hdialog Hearly) as [Ht _].
  rewrite Ht. intros H. destruct H as [H|H]; [discriminate|].
  apply in_app_or in H as [H|H];
    [apply handlerCheck_calls in H; destruct H|].
  destruct Hcases as [->| ->]; [|destruct H].
  rewrite samBuildAndUpload_run in H.
  destruct (makeTemporaryToolkitFolder world) as [tempDir|]; [|cbn in H; split_in H].
  destruct (generateTemplate world) as [[]|]; [|cbn in H; split_in H].
  destruct (samCliBuild world) as [[]|]; [|cbn in H; split_in H].
  cbn zeta in H. rewrite zipAndUploadDirectory_run in H.
  destruct (zipLocalFolder world _) as [bytes|] eqn:Hzip;
    [rewrite uploadZipBuffer_run in H|cbn in H; split_in H].
  destruct (updateFunctionCode world) as [[]|]; cbn in H;
    split_in H; injection H as <- <-; eauto 6.
Qed.

(** X15.  Every [sam build] of Strategy C is invoked without a container
    and without pulling images, on the selected directory as base directory,
    with a template and a build directory inside a fresh temporary folder
    that is registered for disposal, after the template of the function has
    been generated there under the resource name [tempResource]. *)
Theorem sam_build_invocation (buildDir templatePath baseDir : string)
    (skipPullImage useContainer : bool) :
  let run := runUploadLambdaWithSamBuild platform world functionNode in
  In (SamCliBuild buildDir templatePath baseDir skipPullImage useContainer)
     (trace run) ->
  skipPullImage = true /\
  useContainer = false /\
  exists (parentDir : Uri) (tempDir : string),
    openDialog world = Ok (Some [parentDir]) /\
    makeTemporaryToolkitFolder world = Ok tempDir /\
    generateTemplate world = Ok tt /\
    baseDir = fsPath parentDir /\
    buildDir = path_join platform [tempDir; "output"] /\
    templatePath = path_join platform [tempDir; "template.yaml"] /\
    In (AddDisposableFolder tempDir) (trace run) /\
    In (GenerateTemplate (Handler (configuration functionNode)) "tempResource"
                         (Runtime (configuration functionNode))
                         (fsPath parentDir) templatePath)
       (trace run).
Proof.
  cbn zeta.
  destruct (openDialog world) as [[[|parentDir [|]]|]|] eqn:Hdialog;
    try (unfold runUploadLambdaWithSamBuild; rewrite Hdialog; cbn;
         intros H; split_in H; fail).
  destruct (handlerCheck_returns platform world functionNode parentDir)
    as (early & Hearly & Hcases).
  destruct (runUploadLambdaWithSamBuild_steps platform world functionNode
              parentDir early Hdialog Hearly) as [Ht _].
  rewrite Ht. intros H. destruct H as [H|H]; [discriminate|].
  apply in_app_or in H as [H|H];
    [apply handlerCheck_calls in H; destruct H|].
  destruct Hcases as [->| ->]; [|destruct H].
  assert (Hbuild :
    forall c, In c (trace (samBuildAndUpload platform world functionNode parentDir)) ->
              In c (ShowOpenDialog true false
                      :: trace (handlerCheck platform world functionNode parentDir)
                      ++ trace (samBuildAndUpload platform world functionNode
                                                  parentDir))).
  { intros c Hc. right. apply in_or_app. now right. }
  rewrite samBuildAndUpload_run in H, Hbuild |- *.
  destruct (makeTemporaryToolkitFolder world) as [tempDir|]; [|cbn in H; split_in H].
  destruct (generateTemplate world) as [[]|]; [|cbn in H; split_in H].
  assert (Hfrom :
    SamCliBuild (path_join platform [tempDir; "output"])
                (path_join platform [tempDir; "template.yaml"])
                (fsPath parentDir) true false =
    SamCliBuild buildDir templatePath baseDir skipPullImage useContainer).
  { destruct (samCliBuild world) as [[]|]; cbn in H.
    - rewrite zipAndUploadDirectory_run in H.
      destruct (zipLocalFolder world _); [rewrite uploadZipBuffer_run in H|];
        try destruct (updateFunctionCode world) as [[]|]; cbn in H;
        split_in H; exact H.
    - split_in H; exact H. }
  injection Hfrom as <- <- <- <- <-.
  repeat split. exists parentDir, tempDir. repeat split.
  - apply Hbuild. destruct (samCliBuild world); cbn; tauto.
  - apply Hbuild. destruct (samCliBuild world); cbn; tauto.
Qed.

(** *** Failures *)

Lemma reports_after_prefix (prefix : list Call) (run : Async Result) :
  existsb isShowErrorMessage prefix = false ->
  reportsFailure run ->
  reportsFailure (prefix ++ trace run, outcome run).
Proof.
  intros Hquiet (result & Ho & Hshown). exists result. cbn.
  now rewrite existsb_app, Hquiet.
Qed.

Lemma zipAndUploadDirectory_reports (path : string) :
  reportsFailure (zipAndUploadDirectory world functionNode path).
Proof.
  rewrite zipAndUploadDirectory_run.
  destruct (zipLocalFolder world path); [rewrite uploadZipBuffer_run|];
    try destruct (updateFunctionCode world); eexists; split; reflexivity.
Qed.

Lemma samBuildAndUpload_reports (parentDir : Uri) :
  reportsFailure (samBuildAndUpload platform world functionNode parentDir).
Proof.
  rewrite samBuildAndUpload_run.
  destruct (makeTemporaryToolkitFolder world) as [tempDir|];
    [|eexists; split; reflexivity].
  destruct (generateTemplate world) as [[]|]; [|eexists; split; reflexivity].
  destruct (samCliBuild world) as [[]|]; [|eexists; split; reflexivity].
  cbn zeta. apply reports_after_prefix; [reflexivity|].
  apply zipAndUploadDirectory_reports.
Qed.

(** X16.  Once the folder dialog has answered, the uploads of a directory
    and of a built directory always return a result: every failure of
    theirs (template, build, packing, code update) is caught, and an error
    message is shown exactly when the result is [Failed]. *)
Theorem directory_uploads_report_failure (selection : option (list Uri)) :
  openDialog world = Ok selection ->
  (exists result : Result,
     outcome (runUploadLambdaDirectory world functionNode) = Returned result /\
     existsb isShowErrorMessage (trace (runUploadLambdaDirectory world functionNode))
       = match result with Failed => true | _ => false end) /\
  (exists result : Result,
     outcome (runUploadLambdaWithSamBuild platform world functionNode)
       = Returned result /\
     existsb isShowErrorMessage
       (trace (runUploadLambdaWithSamBuild platform world functionNode))
       = match result with Failed => true | _ => false end).
Proof.
  intros Hdialog.
  change (reportsFailure (runUploadLambdaDirectory world functionNode) /\
          reportsFailure (runUploadLambdaWithSamBuild platform world functionNode)).
  split.
  - unfold runUploadLambdaDirectory. rewrite Hdialog.
    destruct selection as [[|dir [|]]|];
      try (exists Cancelled; split; reflexivity).
    cbn -[zipAndUploadDirectory].
    pose proof (zipAndUploadDirectory_reports (fsPath dir)) as Hzip.
    destruct (zipAndUploadDirectory world functionNode (fsPath dir)) as [t o].
    apply (reports_after_prefix [ShowOpenDialog true false] (t, o));
      [reflexivity|exact Hzip].
  - destruct selection as [[|parentDir [|]]|];
      try (unfold runUploadLambdaWithSamBuild; rewrite Hdialog;
           exists Cancelled; split; reflexivity).
    destruct (handlerCheck_returns platform world functionNode parentDir)
      as (early & Hearly & Hcases).
    destruct (runUploadLambdaWithSamBuild_steps platform world functionNode
                parentDir early Hdialog Hearly) as [Ht Ho].
    assert (Hquiet :
      existsb isShowErrorMessage
        (ShowOpenDialog true false
           :: trace (handlerCheck platform world functionNode parentDir)) = false).
    { apply forall_false_existsb. intros c [<-|Hc]; [reflexivity|].
      apply handlerCheck_calls in Hc. destruct c; tauto. }
    pose proof (samBuildAndUpload_reports parentDir) as Hbuild.
    destruct (runUploadLambdaWithSamBuild platform world functionNode) as [t o].
    cbn in Ht, Ho. subst t o.
    destruct Hcases as [->| ->].
    + apply (reports_after_prefix
               (ShowOpenDialog true false
                  :: trace (handlerCheck platform world functionNode parentDir)));
        assumption.
    + exists Cancelled. cbn. split; [reflexivity|].
      rewrite app_nil_r. exact Hquiet.
Qed.

(** X17.  When the selected ZIP archive cannot be read, the upload command
    does not return [Failed]: the error of the read escapes it.  No error
    message is shown, [updateFunctionCode] is not called and no telemetry is
    recorded. *)
Theorem zip_file_read_error_escapes (file : Uri) (message : string) :
  pickerResponse world = Ok (Some uploadZipItem) ->
  uploadConfirmation world = Ok true ->
  openDialog world = Ok (Some [file]) ->
  readFileSync world (fsPath file) = Raises message ->
  let run := uploadLambdaCommand platform world functionNode in
  outcome run = Thrown (Err message) /\
  existsb isShowErrorMessage (trace run) = false /\
  existsb isUpdateFunctionCode (trace run) = false /\
  existsb isTelemetry (trace run) = false.
Proof.
  intros Hpick Hconfirm Hdialog Hread. cbn zeta.
  unfold uploadLambdaCommand, selectUploadTypeAndConfirm, runUploadLambdaZipFile.
  rewrite Hpick, Hconfirm, Hdialog. cbn. rewrite Hread. cbn. now repeat split.
Qed.

(** X18.  In Strategy C, when the handler file is in the selected directory,
    the user is asked nothing: the run goes straight from the check of the
    file to the build block. *)
Theorem handler_present_skips_prompt (parentDir : Uri) (fileName : string) :
  openDialog world = Ok (Some [parentDir]) ->
  getLambdaFileNameFromHandler (getFamily platform) (configuration functionNode)
    = Value fileName ->
  fileExists world (path_join platform [fsPath parentDir; fileName]) = Ok true ->
  let run := runUploadLambdaWithSamBuild platform world functionNode in
  let build := samBuildAndUpload platform world functionNode parentDir in
  trace run =
    [ShowOpenDialog true false;
     FileExists (path_join platform [fsPath parentDir; fileName])]
    ++ trace build /\
  outcome run = outcome build /\
  existsb isConfirmationPrompt (trace run) = false.
Proof.
  intros Hdialog Hname Hpresent run build.
  assert (Hcheck :
    handlerCheck platform world functionNode parentDir =
    ([FileExists (path_join platform [fsPath parentDir; fileName])], Returned None)).
  { unfold handlerCheck. rewrite Hname. cbn. rewrite Hpresent. reflexivity. }
  destruct (runUploadLambdaWithSamBuild_steps platform world functionNode
              parentDir None Hdialog) as [Ht Ho]; [now rewrite Hcheck|].
  subst run build. rewrite Ht, Ho, Hcheck. repeat split.
  cbn. apply samBuildAndUpload_no_prompt.
Qed.

End UploadMore.

(** ** The icon paths of the tests *)

(** X19.  [clearTestIconPaths] does not undo [setupTestIconPaths]: after the
    two, in both themes, the nine icons that [clearTestIconPaths] assigns are
    the empty string, the icon of [cloudWatchLogGroup] still is the path
    that [setupTestIconPaths] gave it, and every other property is as it was
    before. *)
Theorem clear_leaves_log_group_icon (s : IconPaths.State) :
  let cleared := IconPaths.clearTestIconPaths (IconPaths.setupTestIconPaths s) in
  (forall property : string,
     In property IconPaths.clearedProperties ->
     IconPaths.get (IconPaths.dark cleared) property = Some "" /\
     IconPaths.get (IconPaths.light cleared) property = Some "") /\
  IconPaths.get (IconPaths.dark cleared) "cloudWatchLogGroup"
    = Some "/icons/dark/cloudWatchLogGroup" /\
  IconPaths.get (IconPaths.light cleared) "cloudWatchLogGroup"
    = Some "/icons/light/cloudWatchLogGroup" /\
  (forall property : string,
     ~ In property ("cloudWatchLogGroup" :: IconPaths.clearedProperties) ->
     IconPaths.get (IconPaths.dark cleared) property
       = IconPaths.get (IconPaths.dark s) property /\
     IconPaths.get (IconPaths.light cleared) property
       = IconPaths.get (IconPaths.light s) property).
Proof.
  cbn zeta.
  split; [intros property H; split
         |split; [reflexivity|split; [reflexivity|intros property H; split]]].
  - cbn in H. repeat (destruct H as [<-|H]; [reflexivity|]). destruct H.
  - cbn in H. repeat (destruct H as [<-|H]; [reflexivity|]). destruct H.
  - cbv [IconPaths.get IconPaths.set IconPaths.setDark IconPaths.setLight
         IconPaths.dark IconPaths.light IconPaths.clearTestIconPaths
         IconPaths.setupTestIconPaths].
    repeat match goal with
    | |- context [String.eqb property ?k] =>
        replace (String.eqb property k) with false
          by (symmetry; apply String.eqb_neq; intros ->; apply H; cbn; tauto)
    end.
    reflexivity.
  - cbv [IconPaths.get IconPaths.set IconPaths.setDark IconPaths.setLight
         IconPaths.dark IconPaths.light IconPaths.clearTestIconPaths
         IconPaths.setupTestIconPaths].
    repeat match goal with
    | |- context [String.eqb property ?k] =>
        replace (String.eqb property k) with false
          by (symmetry; apply String.eqb_neq; intros ->; apply H; cbn; tauto)
    end.
    reflexivity.
Qed.

Example icons_after_setup :
  IconPaths.get (IconPaths.dark (IconPaths.setupTestIconPaths IconPaths.unset))
                "cloudFormation" = Some "/icons/dark/cloudformation" /\
  IconPaths.get (IconPaths.light (IconPaths.setupTestIconPaths IconPaths.unset))
                "schema" = Some "/icons/light/schema" /\
  IconPaths.get (IconPaths.dark (IconPaths.setupTestIconPaths IconPaths.unset))
                "other" = None.
Proof. repeat split. Qed.

(** ** The further theorems at concrete inputs *)

Lemma extraction_follows_completed_download_witness :
  let run := downloadAndUnzipLambda samplePlatform happyWorld pythonNode "/work/fn1/" in
  completes (requestEvents happyWorld) = true /\
  "/work/fn1/" = "/work/fn1/" /\
  true = true /\
  exists tempFolder codeLocation : string,
    makeTemporaryToolkitFolder happyWorld = Ok tempFolder /\
    getFunction happyWorld = Ok codeLocation /\
    In (AddDisposableFolder tempFolder) (trace run) /\
    In (RequestGet codeLocation (path_join samplePlatform [tempFolder; "function.zip"]))
       (trace run) /\
    In (NewAdmZip (path_join samplePlatform [tempFolder; "function.zip"])) (trace run).
Proof.
  apply (extraction_follows_completed_download samplePlatform happyWorld pythonNode
           "/work/fn1/" "/work/fn1/" true).
  cbn. tauto.
Defined.

Lemma debug_configuration_only_after_open_witness :
  exists fileName : string,
    getLambdaFileNameFromHandler (getFamily samplePlatform) (configuration pythonNode)
      = Value fileName /\
    outcome (downloadAndUnzipLambda samplePlatform happyWorld pythonNode "/work/fn1/")
      = Returned tt /\
    fileExists happyWorld (path_join samplePlatform ["/work/fn1/"; fileName]) = Ok true /\
    openTextDocument happyWorld = Ok tt /\
    showTextDocument happyWorld = Ok tt /\
    handlerPathReferenced happyWorld = false /\
    "app.handler" = Handler (configuration pythonNode) /\
    "/work/fn1" =
      path_dirname samplePlatform (path_join samplePlatform ["/work/fn1/"; fileName]) /\
    "python3.8" = Runtime (configuration pythonNode).
Proof.
  apply (debug_configuration_only_after_open samplePlatform happyWorld pythonNode
           "/work/fn1/" (getWorkspaceFolder happyWorld "/work/fn1/")
           "app.handler" "/work/fn1" "python3.8").
  cbn. tauto.
Defined.

Lemma import_cancelled_touches_nothing_witness :
  existsb isImportEffect
    (trace (runImportLambda samplePlatform promptDismissed pythonNode)) = false.
Proof.
  apply (import_cancelled_touches_nothing samplePlatform promptDismissed pythonNode).
  reflexivity.
Defined.

Lemma import_succeeded_has_extracted_witness :
  let run := runImportLambda samplePlatform happyWorld pythonNode in
  exists (selectedUri : Uri) (timing : CallbackTiming),
    locationPrompt happyWorld = Ok (Some selectedUri) /\
    completes (requestEvents happyWorld) = true /\
    extraction happyWorld = CallbackInvoked timing None /\
    In (ExtractAllToAsync
          (path_join samplePlatform [fsPath selectedUri;
                                     FunctionName (configuration pythonNode);
                                     path_sep samplePlatform])
          true)
       (trace run) /\
    progressIncrements (trace run) = [10; 70; 10]%Z.
Proof.
  apply (import_succeeded_has_extracted samplePlatform happyWorld pythonNode).
  reflexivity.
Defined.

Lemma import_unsupported_runtime_downloads_nothing_witness :
  let run := runImportLambda samplePlatform happyWorld rubyNode in
  existsb isDownloadCall (trace run) = false /\
  (outcome run = Returned Cancelled \/
   exists message : string, outcome run = Thrown (Err message)).
Proof.
  apply (import_unsupported_runtime_downloads_nothing samplePlatform happyWorld
           rubyNode).
  reflexivity.
Defined.

Lemma import_overwrites_only_after_confirmation_witness :
  exists selectedUri : Uri,
    locationPrompt happyWorld = Ok (Some selectedUri) /\
    let importLocation :=
      path_join samplePlatform [fsPath selectedUri;
                                FunctionName (configuration pythonNode);
                                path_sep samplePlatform] in
    "/work/fn1/" = importLocation /\
    (pathExists happyWorld importLocation = Ok false \/
     (pathExists happyWorld importLocation = Ok true /\
      overwriteConfirmation happyWorld = Ok true)).
Proof.
  apply (import_overwrites_only_after_confirmation samplePlatform happyWorld
           pythonNode "/work/fn1/" true).
  cbn. tauto.
Defined.

Lemma upload_needs_confirmation_witness :
  uploadConfirmation happyWorld = Ok true /\
  exists item : UploadItem, pickerResponse happyWorld = Ok (Some item).
Proof.
  apply (upload_needs_confirmation samplePlatform happyWorld pythonNode
           (UpdateFunctionCode "fn1" "PK")).
  - cbn. tauto.
  - reflexivity.
Defined.

Lemma zip_file_upload_is_passthrough_witness :
  let run := runUploadLambdaZipFile happyWorld pythonNode in
  "fn1" = FunctionName (configuration pythonNode) /\
  packedFolders (trace run) = [] /\
  exists file : Uri,
    openDialog happyWorld = Ok (Some [file]) /\
    readFileSync happyWorld (fsPath file) = Ok "PK".
Proof.
  apply (zip_file_upload_is_passthrough happyWorld pythonNode "fn1" "PK").
  cbn. tauto.
Defined.

Lemma directory_upload_deploys_selected_folder_witness :
  let run := runUploadLambdaDirectory happyWorld pythonNode in
  "fn1" = FunctionName (configuration pythonNode) /\
  exists dir : Uri,
    openDialog happyWorld = Ok (Some [dir]) /\
    packedFolders (trace run) = [fsPath dir] /\
    zipLocalFolder happyWorld (fsPath dir) = Ok "PK".
Proof.
  apply (directory_upload_deploys_selected_folder happyWorld pythonNode "fn1" "PK").
  cbn. tauto.
Defined.

Lemma build_upload_deploys_packed_output_witness :
  "fn1" = FunctionName (configuration pythonNode) /\
  generateTemplate happyWorld = Ok tt /\
  samCliBuild happyWorld = Ok tt /\
  exists tempDir : string,
    makeTemporaryToolkitFolder happyWorld = Ok tempDir /\
    zipLocalFolder happyWorld
      (path_join samplePlatform
         [path_join samplePlatform [tempDir; "output"]; "tempResource"])
      = Ok "PK".
Proof.
  apply (build_upload_deploys_packed_output samplePlatform happyWorld pythonNode
           "fn1" "PK").
  cbn. tauto.
Defined.

Lemma sam_build_invocation_witness :
  let run := runUploadLambdaWithSamBuild samplePlatform happyWorld pythonNode in
  true = true /\
  false = false /\
  exists (parentDir : Uri) (tempDir : string),
    openDialog happyWorld = Ok (Some [parentDir]) /\
    makeTemporaryToolkitFolder happyWorld = Ok tempDir /\
    generateTemplate happyWorld = Ok tt /\
    "/work" = fsPath parentDir /\
    "/tmp/aws-toolkit-vscode/1/output" = path_join samplePlatform [tempDir; "output"] /\
    "/tmp/aws-toolkit-vscode/1/template.yaml"
      = path_join samplePlatform [tempDir; "template.yaml"] /\
    In (AddDisposableFolder tempDir) (trace run) /\
    In (GenerateTemplate (Handler (configuration pythonNode)) "tempResource"
                         (Runtime (configuration pythonNode))
                         (fsPath parentDir) "/tmp/aws-toolkit-vscode/1/template.yaml")
       (trace run).
Proof.
  apply (sam_build_invocation samplePlatform happyWorld pythonNode
           "/tmp/aws-toolkit-vscode/1/output"
           "/tmp/aws-toolkit-vscode/1/template.yaml" "/work" true false).
  cbn. tauto.
Defined.

Lemma directory_uploads_report_failure_witness :
  (exists result : Result,
     outcome (runUploadLambdaDirectory buildFailure pythonNode) = Returned result /\
     existsb isShowErrorMessage (trace (runUploadLambdaDirectory buildFailure pythonNode))
       = match result with Failed => true | _ => false end) /\
  (exists result : Result,
     outcome (runUploadLambdaWithSamBuild samplePlatform buildFailure pythonNode)
       = Returned result /\
     existsb isShowErrorMessage
       (trace (runUploadLambdaWithSamBuild samplePlatform buildFailure pythonNode))
       = match result with Failed => true | _ => false end).
Proof.
  apply (directory_uploads_report_failure samplePlatform buildFailure pythonNode
           (Some [sampleUri])).
  reflexivity.
Defined.

Lemma zip_file_read_error_escapes_witness :
  let run := uploadLambdaCommand samplePlatform zipFileUnreadable pythonNode in
  outcome run = Thrown (Err "EACCES: permission denied") /\
  existsb isShowErrorMessage (trace run) = false /\
  existsb isUpdateFunctionCode (trace run) = false /\
  existsb isTelemetry (trace run) = false.
Proof.
  apply (zip_file_read_error_escapes samplePlatform zipFileUnreadable pythonNode
           {| uriId := 2; fsPath := "/work/fn1.zip" |} "EACCES: permission denied");
    reflexivity.
Defined.

Lemma handler_present_skips_prompt_witness :
  let run := runUploadLambdaWithSamBuild samplePlatform happyWorld pythonNode in
  let build := samBuildAndUpload samplePlatform happyWorld pythonNode sampleUri in
  trace run =
    [ShowOpenDialog true false;
     FileExists (path_join samplePlatform [fsPath sampleUri; "app.py"])]
    ++ trace build /\
  outcome run = outcome build /\
  existsb isConfirmationPrompt (trace run) = false.
Proof.
  apply (handler_present_skips_prompt samplePlatform happyWorld pythonNode
           sampleUri "app.py");
    reflexivity.
Defined.
